(** * fix_session.py: the session fixer, embedded and verified

    The program reads a line-delimited JSON session log, prepends a
    [file-history-snapshot] record when none is present, normalises a few
    metadata fields of every other record, renames the original file to a
    backup and writes the fixed records back.

    Embedding choices.
    - A JSON value is the inductive [json]; a Python [dict] is an
      association list in insertion order ([dict]), because [json.dumps]
      writes the keys in that order.  Lookup takes the first binding and
      assignment replaces the value of the first binding in place or appends
      a new binding at the end, as a Python dict does.
    - Every record comes from its own call of [json.loads], so no two
      records alias each other and the in-place mutation of the loop is an
      update of the record's own value.
    - [uuid.uuid4()] is a draw from an entropy source [rng]; the state of
      the computation is the number of draws made so far.  An uncaught
      Python exception is the left summand of the result.
    - The filesystem is a finite map from paths to what they name: a
      directory, a file whose bytes stop being UTF-8, or a text file given
      by its lines.  [rename] is the POSIX one: it replaces a file at the
      target and fails on a directory there.  Failures of the operating
      system that do not depend on the input (permissions, a full disk) and
      console output are not modelled.
    - [str.strip], [json.loads], [json.dumps], the UTF-8 encoder and
      [Path.with_suffix] are library functions; they are section
      variables.  [json.loads] ends in a value, in the [JSONDecodeError]
      that the program catches, or in another exception. *)

From Stdlib Require Import ZArith NArith Lia Ascii String List Bool.
From stdpp Require Import base tactics option list strings gmap.

Local Open Scope string_scope.
Local Open Scope list_scope.

(** ** JSON values *)

#[warnings="-register-all"]
Inductive json : Type :=
  | JNull
  | JBool (b : bool)
  | JInt (z : Z)
  | JFloat (bits : N)      (* an IEEE double, by its bit pattern *)
  | JStr (s : string)
  | JArr (items : list json)
  | JObj (fields : list (string * json)).

(** A Python dict with string keys, in insertion order. *)
Definition dict : Type := list (string * json).

(** [d.get(k)] / [d[k]]: the value bound to [k]. *)
Fixpoint dict_get (k : string) (d : dict) : option json :=
  match d with
  | [] => None
  | (k', v) :: rest => if String.eqb k' k then Some v else dict_get k rest
  end.

(** [k in d]. *)
Definition dict_in (k : string) (d : dict) : bool :=
  match dict_get k d with Some _ => true | None => false end.

(** [d[k] = v]: overwrite in place when [k] is bound, append otherwise. *)
Fixpoint dict_set (k : string) (v : json) (d : dict) : dict :=
  match d with
  | [] => [(k, v)]
  | (k', v') :: rest =>
      if String.eqb k' k then (k', v) :: rest
      else (k', v') :: dict_set k v rest
  end.

(** [d.get(k, dflt)]. *)
Definition dict_get_default (k : string) (dflt : json) (d : dict) : json :=
  match dict_get k d with Some v => v | None => dflt end.

(** [v == s] for a JSON value [v] and a Python string literal [s]: only a
    string compares equal to a string. *)
Definition py_eq_str (v : json) (s : string) : bool :=
  match v with
  | JStr t => String.eqb t s
  | _ => false
  end.

(** [v == s] where [v] is the result of [d.get(k)] ([None] when absent). *)
Definition py_opt_eq_str (v : option json) (s : string) : bool :=
  match v with
  | Some j => py_eq_str j s
  | None => false
  end.

Definition is_object (j : json) : bool :=
  match j with JObj _ => true | _ => false end.

(** ** Exceptions, and the monad of draws and exceptions *)

Inductive exn : Type :=
  | AttributeError       (* [.get] on a value that is not a dict *)
  | IndexError           (* [lines[0]] on an empty list *)
  | IsADirectoryError    (* [open] of, or [rename] onto, a directory *)
  | UnicodeDecodeError   (* reading bytes that are not UTF-8 *)
  | UnicodeEncodeError   (* writing text that has no UTF-8 encoding *)
  | ValueError           (* [json.loads]: an integer with too many digits *)
  | RecursionError.      (* [json.loads]: nesting too deep *)

(** How a call of [json.loads] ends: a value, the [JSONDecodeError] that
    line 30 catches, or another exception, which nothing catches. *)
Inductive loads_result : Type :=
  | Loaded (msg : json)
  | JSONDecodeError
  | LoadsRaised (e : exn).

(** What a path names: a directory; a file whose bytes stop being UTF-8,
    given by the lines that iterating over it yields before it raises; or
    a text file, given by the lines that iterating over it yields. *)
Inductive node : Type :=
  | Dir
  | Undecodable (lines : list string)
  | Text (lines : list string).

Module Py.

(** A computation reads how many identifiers were drawn so far and either
    raises or returns a value with the new count. *)
Definition M (A : Type) : Type := nat -> exn + (A * nat).

Definition ret {A} (a : A) : M A := fun n => inr (a, n).

Definition raise {A} (e : exn) : M A := fun _ => inl e.

Definition bind {A B} (c : M A) (k : A -> M B) : M B :=
  fun n =>
    match c n with
    | inl e => inl e
    | inr (a, n') => k a n'
    end.

(** [[f(x) for x in l]] with an effectful [f], left to right. *)
Fixpoint mapM {A B} (f : A -> M B) (l : list A) : M (list B) :=
  match l with
  | [] => ret []
  | x :: rest =>
      bind (f x) (fun y => bind (mapM f rest) (fun ys => ret (y :: ys)))
  end.

End Py.

Notation "'let*' x ':=' c1 'in' c2" :=
  (Py.bind c1 (fun x => c2))
  (at level 10, x name, c1 at level 100, c2 at level 200).

(** ** Formatting of UUIDs *)

Definition hex_digit (d : N) : ascii :=
  match d with
  | 0%N => "0" | 1%N => "1" | 2%N => "2" | 3%N => "3"
  | 4%N => "4" | 5%N => "5" | 6%N => "6" | 7%N => "7"
  | 8%N => "8" | 9%N => "9" | 10%N => "a" | 11%N => "b"
  | 12%N => "c" | 13%N => "d" | 14%N => "e" | _ => "f"
  end%char.

(** The [width] low hexadecimal digits of [n], most significant first. *)
Fixpoint hex_fixed (width : nat) (n : N) (acc : string) : string :=
  match width with
  | O => acc
  | S w => hex_fixed w (n / 16)%N (String (hex_digit (n mod 16)%N) acc)
  end.

(** [UUID.hex]: ['%032x' % self.int]. *)
Definition uuid_hex (u : N) : string := hex_fixed 32 u "".

(** [str(UUID)]: the 8-4-4-4-12 form. *)
Definition uuid_str (u : N) : string :=
  let h := uuid_hex u in
  substring 0 8 h +:+ "-" +:+ substring 8 4 h +:+ "-" +:+ substring 12 4 h
    +:+ "-" +:+ substring 16 4 h +:+ "-" +:+ substring 20 12 h.

(** The version and variant bits that [uuid4] forces on 128 random bits. *)
Definition uuid4_of_bits (r : N) : N :=
  let i := N.land r (N.ones 128) in
  let i := N.ldiff i (N.shiftl 0xc000 48) in
  let i := N.lor i (N.shiftl 0x8000 48) in
  let i := N.ldiff i (N.shiftl 0xf000 64) in
  N.lor i (N.shiftl 4 76).

(** ** The literals of the program *)

Definition newline : string := String (ascii_of_nat 10) EmptyString.

Definition SNAPSHOT_TYPE : string := "file-history-snapshot".
Definition CLAUDE_VERSION : string := "2.0.28".
Definition DEFAULT_TIMESTAMP : string := "2025-10-29T10:00:00.000Z".
Definition DEFAULT_BRANCH : string := "main".

Definition thinking_metadata : json :=
  JObj [("level", JStr "high"); ("disabled", JBool false); ("triggers", JArr [])].

(** The snapshot record built at lines 48-57. *)
Definition make_snapshot (first_msg_uuid timestamp : json) : dict :=
  [ ("type", JStr SNAPSHOT_TYPE);
    ("messageId", first_msg_uuid);
    ("snapshot", JObj [ ("messageId", first_msg_uuid);
                        ("trackedFileBackups", JObj []);
                        ("timestamp", timestamp) ]);
    ("isSnapshotUpdate", JBool false) ].

(** Whether a record is a snapshot record: [msg.get('type') == '...']. *)
Definition is_snapshot (d : dict) : bool :=
  py_opt_eq_str (dict_get "type" d) SNAPSHOT_TYPE.

(** Whether a record has the given type. *)
Definition has_type (t : string) (d : dict) : bool :=
  py_opt_eq_str (dict_get "type" d) t.

Definition not_snapshot (d : dict) : bool := negb (is_snapshot d).

(** [o] has the keys of [i] in their order, then possibly more. *)
Definition keys_extend (i o : dict) : Prop :=
  exists added, map fst o = map fst i ++ added.

(** [o] is the record [i] after field additions and the version overwrite:
    the keys of [i] stay in place and every field but [version] keeps its
    value. *)
Definition same_record (i o : dict) : Prop :=
  keys_extend i o
  /\ forall k v, k <> "version" -> dict_get k i = Some v -> dict_get k o = Some v.

(** A record for which line 80 draws a [requestId]. *)
Definition needs_requestId (d : dict) : bool :=
  has_type "assistant" d && negb (dict_in "requestId" d).

Definition count_needs_requestId (l : list dict) : nat :=
  length (List.filter needs_requestId l).

(** A record whose type is none of the three the loop body tests. *)
Definition other_type (d : dict) : bool :=
  negb (is_snapshot d) && negb (has_type "user" d)
  && negb (has_type "assistant" d).

(** A record on which the loop body has nothing left to do. *)
Definition normal (o : dict) : Prop :=
  is_snapshot o = true
  \/ ((forall v, dict_get "version" o = Some v -> v = JStr CLAUDE_VERSION)
      /\ (has_type "user" o || has_type "assistant" o = true ->
          dict_in "gitBranch" o = true)
      /\ (has_type "assistant" o = true -> dict_in "requestId" o = true)
      /\ (has_type "user" o = true -> dict_in "thinkingMetadata" o = true)).

Definition count_snapshots (l : list dict) : nat :=
  length (List.filter is_snapshot l).

(** ** The program *)

Section Program.

(** The entropy source of [uuid.uuid4()]: the 128 bits of the k-th draw. *)
Variable rng : nat -> N.

(** [str.strip()] and [json.loads]. *)
Variable strip : string -> string.
Variable json_loads : string -> loads_result.

(** [json.dumps(msg, ensure_ascii=False)], and whether a text has a UTF-8
    encoding (it has none when it holds a lone surrogate). *)
Variable json_dumps : json -> string.
Variable utf8_encodable : string -> bool.

(** [Path.with_suffix('.jsonl.backup')]. *)
Variable backup_of : string -> string.

(** [uuid.uuid4()]: one draw. *)
Definition uuid4 : Py.M N :=
  fun n => inr (uuid4_of_bits (rng n), S n).

(** Lines 21-32: the values of the lines that are not blank and parse; an
    exception of [json.loads] other than [JSONDecodeError] ends the loop. *)
Fixpoint read_lines (f : list string) : exn + list json :=
  match f with
  | [] => inr []
  | line :: rest =>
      let line := strip line in
      if String.eqb line "" then read_lines rest
      else
        match json_loads line with
        | Loaded msg =>
            match read_lines rest with
            | inl e => inl e
            | inr lines => inr (msg :: lines)
            end
        | JSONDecodeError => read_lines rest
        | LoadsRaised e => inl e
        end
  end.

(** Line 41: [any(msg.get('type') == 'file-history-snapshot' for msg in
    lines)].  The generator is consumed lazily: the scan stops at the
    first snapshot record and raises at a value that has no [.get]. *)
Fixpoint has_snapshot (lines : list json) : Py.M bool :=
  match lines with
  | [] => Py.ret false
  | JObj d :: rest =>
      if py_opt_eq_str (dict_get "type" d) SNAPSHOT_TYPE then Py.ret true
      else has_snapshot rest
  | _ :: _ => Py.raise AttributeError
  end.

(** Lines 46-59: the records put in front of the output. *)
Definition synthesize (lines : list json) (has : bool) : Py.M (list json) :=
  if negb has then
    match lines with
    | [] => Py.raise IndexError
    | JObj first :: _ =>
        (* the default argument is evaluated whether or not it is used *)
        let* u := uuid4 in
        let first_msg_uuid := dict_get_default "uuid" (JStr (uuid_str u)) first in
        let timestamp :=
          dict_get_default "timestamp" (JStr DEFAULT_TIMESTAMP) first in
        Py.ret [JObj (make_snapshot first_msg_uuid timestamp)]
    | _ :: _ => Py.raise AttributeError
    end
  else Py.ret [].

(** Lines 63-90, for a record that is a dict. *)
Definition fix_record (msg : dict) : Py.M dict :=
  let msg_type := dict_get_default "type" (JStr "") msg in
  if py_eq_str msg_type SNAPSHOT_TYPE then Py.ret msg
  else
    let msg :=
      if dict_in "version" msg
      then dict_set "version" (JStr CLAUDE_VERSION) msg else msg in
    let msg :=
      if negb (dict_in "gitBranch" msg)
         && (py_eq_str msg_type "user" || py_eq_str msg_type "assistant")
      then dict_set "gitBranch" (JStr DEFAULT_BRANCH) msg else msg in
    let* msg :=
      if py_eq_str msg_type "assistant" && negb (dict_in "requestId" msg)
      then
        let* u := uuid4 in
        Py.ret (dict_set "requestId" (JStr ("req_" +:+ uuid_hex u)) msg)
      else Py.ret msg in
    let msg :=
      if py_eq_str msg_type "user" && negb (dict_in "thinkingMetadata" msg)
      then dict_set "thinkingMetadata" thinking_metadata msg else msg in
    Py.ret msg.

(** One iteration of the loop of line 62. *)
Definition fix_msg (msg : json) : Py.M json :=
  match msg with
  | JObj d => let* d' := fix_record d in Py.ret (JObj d')
  | _ => Py.raise AttributeError
  end.

(** Lines 41-90: from [lines] to [fixed_lines]. *)
Definition fix_lines (lines : list json) : Py.M (list json) :=
  let* has := has_snapshot lines in
  let* front := synthesize lines has in
  let* fixed := Py.mapM fix_msg lines in
  Py.ret (front ++ fixed).

(** How a call of [fix_session] ends. *)
Inductive outcome : Type :=
  | Returned (ok : bool)
  | Raised (e : exn).

(** Lines 98-100: the lines that reach the file and whether the loop got
    through every record.  [f.write] encodes the line it is given: a line
    without UTF-8 encoding raises there, and closing the file leaves the
    lines written before it. *)
Fixpoint write_lines (fixed_lines : list json) : list string * bool :=
  match fixed_lines with
  | [] => ([], true)
  | msg :: rest =>
      let line := json_dumps msg +:+ newline in
      if utf8_encodable line then
        let (written, ok) := write_lines rest in (line :: written, ok)
      else ([], false)
  end.

(** [fix_session(session_path)] on the filesystem [fs], with [n] draws
    made before the call: how it ends and the filesystem it leaves. *)
Definition fix_session (session_path : string) (fs : gmap string node)
    (n : nat) : outcome * gmap string node :=
  match fs !! session_path with
  | None => (Returned false, fs)
  | Some Dir => (Raised IsADirectoryError, fs)
  | Some (Undecodable content) =>
      match read_lines content with
      | inl e => (Raised e, fs)
      | inr _ => (Raised UnicodeDecodeError, fs)
      end
  | Some (Text content) =>
      match read_lines content with
      | inl e => (Raised e, fs)
      | inr [] => (Returned false, fs)
      | inr lines =>
          match fix_lines lines n with
          | inl e => (Raised e, fs)
          | inr (fixed_lines, _) =>
              let backup_path := backup_of session_path in
              match fs !! backup_path with
              | Some Dir => (Raised IsADirectoryError, fs)
              | _ =>
                  let fs :=
                    <[backup_path := Text content]> (delete session_path fs) in
                  let (written, ok) := write_lines fixed_lines in
                  (if ok then Returned true else Raised UnicodeEncodeError,
                   <[session_path := Text written]> fs)
              end
          end
      end
  end.

(** How the process ends: [sys.exit(code)], or an exception nobody
    catches. *)
Inductive process_end : Type :=
  | Exit (code : Z)
  | Uncaught (e : exn).

(** Lines 107-114: the script run with [sys.argv = argv]. *)
Definition main (argv : list string) (fs : gmap string node)
    (n : nat) : process_end * gmap string node :=
  if negb (Nat.eqb (length argv) 2) then (Exit 1, fs)
  else
    match nth_error argv 1 with
    | None => (Uncaught IndexError, fs)
    | Some session_path =>
        match fix_session session_path fs n with
        | (Returned success, fs') => (Exit (if success then 0 else 1), fs')
        | (Raised e, fs') => (Uncaught e, fs')
        end
    end.

(** *** Definitions used to state the properties *)

(** The line written for one record at line 100. *)
Definition line_of (msg : json) : string := json_dumps msg +:+ newline.

(** Every line written for these records has a UTF-8 encoding. *)
Definition all_encodable (out : list json) : Prop :=
  Forall (fun msg => utf8_encodable (line_of msg) = true) out.

(** The loop of line 62 on a list of dicts, with the count of draws
    threaded from one record to the next. *)
Inductive fixed_run : nat -> list dict -> list dict -> nat -> Prop :=
  | fixed_nil n : fixed_run n [] [] n
  | fixed_cons n m n' i o recs outs :
      fix_record i n = inr (o, m) ->
      fixed_run m recs outs n' ->
      fixed_run n (i :: recs) (o :: outs) n'.

(** The records that lines 46-59 put in front of the output when the
    input is a list of dicts. *)
Definition synthesized (recs : list dict) (n : nat) : list dict :=
  match recs with
  | [] => []
  | first :: _ =>
      if existsb is_snapshot recs then []
      else
        [make_snapshot
           (dict_get_default "uuid"
              (JStr (uuid_str (uuid4_of_bits (rng n)))) first)
           (dict_get_default "timestamp" (JStr DEFAULT_TIMESTAMP) first)]
  end.

End Program.

(** ** Concrete instances of the library functions

    Small executable stand-ins, used to run the program on sample inputs. *)

(** An entropy source. *)
Definition sample_rng (k : nat) : N :=
  (N.of_nat k * 0x123456789abcdef0123456789abcdef + 77)%N.

Definition is_space (c : ascii) : bool :=
  match nat_of_ascii c with
  | 9 | 10 | 11 | 12 | 13 | 32 => true
  | _ => false
  end.

Fixpoint lstrip (s : string) : string :=
  match s with
  | EmptyString => EmptyString
  | String c rest => if is_space c then lstrip rest else s
  end.

Fixpoint rstrip (s : string) : string :=
  match s with
  | EmptyString => EmptyString
  | String c rest =>
      match rstrip rest with
      | EmptyString => if is_space c then EmptyString else String c EmptyString
      | rest' => String c rest'
      end
  end.

(** [str.strip] on ASCII text. *)
Definition strip_ascii (s : string) : string := rstrip (lstrip s).

(** [json.loads] on a few JSON texts; every other text fails to parse. *)
Definition loads_sample (s : string) : loads_result :=
  if String.eqb s "{}" then Loaded (JObj [])
  else if String.eqb s "5" then Loaded (JInt 5)
  else if String.eqb s "[]" then Loaded (JArr [])
  else if String.eqb s "null" then Loaded JNull
  else JSONDecodeError.

(** A printer that tells the shapes apart; enough to run [fix_session]. *)
Definition dumps_sample (j : json) : string :=
  match j with
  | JNull => "null"
  | JBool true => "true"
  | JBool false => "false"
  | JInt _ | JFloat _ => "0"
  | JStr s => s
  | JArr _ => "[]"
  | JObj [] => "{}"
  | JObj (_ :: _) => "{...}"
  end.

(** [with_suffix('.jsonl.backup')] on a path that ends in [.jsonl]. *)
Definition backup_sample (path : string) : string := path +:+ ".backup".

Definition sample_user : dict :=
  [("type", JStr "user"); ("uuid", JStr "abc");
   ("timestamp", JStr "2025-01-01T00:00:00.000Z")].

Definition sample_assistant : dict :=
  [("type", JStr "assistant"); ("version", JStr "1.0.0")].

Definition sample_snapshot : dict :=
  [("type", JStr "file-history-snapshot"); ("version", JStr "1.0.0")].

Definition sample_system : dict :=
  [("type", JStr "system"); ("version", JStr "1.0.0")].

Definition quote : string := String (ascii_of_nat 34) EmptyString.

(** A printer in the manner of JSON text (no escapes, every number as 0);
    it tells apart the values used below. *)
Fixpoint dumps_plain (j : json) : string :=
  match j with
  | JNull => "null"
  | JBool true => "true"
  | JBool false => "false"
  | JInt _ | JFloat _ => "0"
  | JStr s => quote +:+ s +:+ quote
  | JArr items =>
      "[" +:+ (fix go (l : list json) : string :=
                 match l with
                 | [] => ""
                 | x :: rest => dumps_plain x +:+ "," +:+ go rest
                 end) items +:+ "]"
  | JObj fields =>
      "{" +:+ (fix go (l : list (string * json)) : string :=
                 match l with
                 | [] => ""
                 | (k, v) :: rest =>
                     quote +:+ k +:+ quote +:+ ":" +:+ dumps_plain v +:+ ","
                       +:+ go rest
                 end) fields +:+ "}"
  end.

(** The parser that inverts [dumps_plain] on a list of known values. *)
Definition loads_known (known : list json) (s : string) : loads_result :=
  match List.find (fun j => String.eqb (dumps_plain j) s) known with
  | Some j => Loaded j
  | None => JSONDecodeError
  end.

(** The UTF-8 encoder accepts a text unless it holds the character 255,
    which stands for a lone surrogate here. *)
Fixpoint encodable_sample (s : string) : bool :=
  match s with
  | EmptyString => true
  | String c rest =>
      negb (Ascii.eqb c (ascii_of_nat 255)) && encodable_sample rest
  end.

(** A session file with the user record of the samples on its one line. *)
Definition sample_content : list string :=
  [dumps_plain (JObj sample_user) +:+ newline].

Definition sample_fs : gmap string node :=
  {[ "s.jsonl" := Text sample_content ]}.

(** A record with a lone surrogate in a string, and a session file with
    the user record of the samples followed by it. *)
Definition sample_surrogate : dict :=
  [("type", JStr "system");
   ("text", JStr (String (ascii_of_nat 255) EmptyString))].

Definition surrogate_content : list string :=
  [dumps_plain (JObj sample_user) +:+ newline;
   dumps_plain (JObj sample_surrogate) +:+ newline].

Definition surrogate_fs : gmap string node :=
  {[ "s.jsonl" := Text surrogate_content ]}.

(** The user record of the samples, and what [fix_lines] makes of it. *)
Definition sample_known : list json :=
  [ JObj sample_user;
    JObj (make_snapshot (JStr "abc") (JStr "2025-01-01T00:00:00.000Z"));
    JObj (sample_user ++ [("gitBranch", JStr "main");
                          ("thinkingMetadata", thinking_metadata)]) ].

(** ** Facts about dicts *)

Section DictFacts.

Implicit Types (d : dict) (k : string) (v : json).

Lemma dict_get_set k k' v d :
  dict_get k (dict_set k' v d) = if String.eqb k' k then Some v else dict_get k d.
Proof.
  induction d as [|[k0 v0] d IH]; simpl.
  - destruct (String.eqb k' k); reflexivity.
  - destruct (String.eqb k0 k') eqn:E0; simpl.
    + apply String.eqb_eq in E0; subst k0.
      destruct (String.eqb k' k); reflexivity.
    + destruct (String.eqb k0 k) eqn:E1; [|exact IH].
      apply String.eqb_eq in E1; subst k0.
      rewrite String.eqb_sym, E0. reflexivity.
Qed.

Lemma dict_in_set k k' v d :
  dict_in k (dict_set k' v d) = String.eqb k' k || dict_in k d.
Proof.
  unfold dict_in. rewrite dict_get_set.
  destruct (String.eqb k' k); reflexivity.
Qed.

(** Assigning the value a key already has changes nothing. *)
Lemma dict_set_same k v d : dict_get k d = Some v -> dict_set k v d = d.
Proof.
  induction d as [|[k0 v0] d IH]; simpl; [discriminate|].
  destruct (String.eqb k0 k); intros H.
  - congruence.
  - rewrite IH by assumption. reflexivity.
Qed.

(** Assignment keeps the keys in their order and adds at most one at the
    end. *)
Lemma dict_set_keys k v d :
  exists added, map fst (dict_set k v d) = map fst d ++ added.
Proof.
  induction d as [|[k0 v0] d [added IH]]; simpl.
  - exists [k]. reflexivity.
  - destruct (String.eqb k0 k); simpl.
    + exists []. rewrite app_nil_r. reflexivity.
    + exists added. rewrite IH. reflexivity.
Qed.

Lemma keys_extend_refl d : keys_extend d d.
Proof. exists []. rewrite app_nil_r. reflexivity. Qed.

Lemma keys_extend_set k v d d' :
  keys_extend d d' -> keys_extend d (dict_set k v d').
Proof.
  intros [a1 H1]. destruct (dict_set_keys k v d') as [a2 H2].
  exists (a1 ++ a2). rewrite H2, H1, app_assoc. reflexivity.
Qed.

Lemma dict_in_true k d : dict_in k d = true <-> exists v, dict_get k d = Some v.
Proof.
  unfold dict_in. destruct (dict_get k d); split; eauto; try discriminate.
  intros [v H]; discriminate.
Qed.

Lemma dict_in_false k d : dict_in k d = false <-> dict_get k d = None.
Proof.
  unfold dict_in. destruct (dict_get k d); split; congruence.
Qed.

End DictFacts.

(** ** One record through the loop body *)

Section RecordFacts.

Variable rng : nat -> N.

Implicit Types (d : dict) (n : nat).

(** The type tests of the loop body, which read [msg.get('type', '')],
    agree with [has_type], which reads [msg.get('type')]. *)
Lemma py_eq_msg_type d t :
  t <> "" ->
  py_eq_str (dict_get_default "type" (JStr "") d) t = has_type t d.
Proof.
  intros Ht. unfold dict_get_default, has_type.
  destruct (dict_get "type" d); simpl; [reflexivity|].
  destruct t; [congruence | reflexivity].
Qed.

(** A record has at most one of the three types the program tests. *)
Lemma type_cases d :
  (is_snapshot d = true /\ has_type "user" d = false
     /\ has_type "assistant" d = false)
  \/ (is_snapshot d = false /\ has_type "user" d = true
     /\ has_type "assistant" d = false)
  \/ (is_snapshot d = false /\ has_type "user" d = false
     /\ has_type "assistant" d = true)
  \/ (is_snapshot d = false /\ has_type "user" d = false
     /\ has_type "assistant" d = false).
Proof.
  unfold is_snapshot, has_type, py_opt_eq_str, py_eq_str.
  destruct (dict_get "type" d) as [[| | | |s| |]|]; auto 6.
  destruct (String.eqb_spec s SNAPSHOT_TYPE) as [->|];
    [left; repeat split; reflexivity|].
  destruct (String.eqb_spec s "user") as [->|];
    [right; left; repeat split; reflexivity|].
  destruct (String.eqb_spec s "assistant") as [->|]; auto 6.
Qed.

(** Case analysis on the type of [d] and on the presence of the four
    fields, then evaluation of the loop body in hypothesis [H]. *)
Ltac bool_norm_in H :=
  cbn [andb orb negb String.eqb Ascii.eqb Bool.eqb] in H.

Ltac run_fix_record d H :=
  unfold fix_record, Py.bind, Py.ret, uuid4 in H;
  rewrite ?py_eq_msg_type in H by discriminate;
  change (has_type SNAPSHOT_TYPE d) with (is_snapshot d) in H;
  destruct (type_cases d)
    as [(Hs & Hu & Ha)|[(Hs & Hu & Ha)|[(Hs & Hu & Ha)|(Hs & Hu & Ha)]]];
  rewrite ?Hs, ?Hu, ?Ha in H;
  cbn [andb orb negb] in H;
  destruct (dict_in "version" d) eqn:Hver;
  destruct (dict_in "gitBranch" d) eqn:Hgit;
  destruct (dict_in "requestId" d) eqn:Hreq;
  destruct (dict_in "thinkingMetadata" d) eqn:Hthk;
  repeat (progress (rewrite ?Hver, ?Hgit, ?Hreq, ?Hthk,
                      ?dict_in_set, ?dict_get_set in H;
                    bool_norm_in H)).

Lemma fix_record_total d n :
  exists d' n', fix_record rng d n = inr (d', n').
Proof.
  destruct (fix_record rng d n) as [e|[d' n']] eqn:H; [exfalso|eauto].
  run_fix_record d H; discriminate.
Qed.

Lemma fix_record_draws d n d' n' :
  fix_record rng d n = inr (d', n') -> n <= n' <= S n.
Proof.
  intros H. run_fix_record d H; inversion H; lia.
Qed.

Ltac dict_norm :=
  repeat (progress (rewrite ?dict_in_set, ?dict_get_set;
                    cbn [andb orb negb String.eqb Ascii.eqb Bool.eqb])).

(** Evaluate the run [H], name its result and normalise the goal. *)
Ltac invert_fix_record d H :=
  run_fix_record d H; inversion H; subst; clear H; dict_norm.

Lemma fix_record_type d n d' n' :
  fix_record rng d n = inr (d', n') -> dict_get "type" d' = dict_get "type" d.
Proof. intros H. invert_fix_record d H; reflexivity. Qed.

Lemma fix_record_has_type t d n d' n' :
  fix_record rng d n = inr (d', n') -> has_type t d' = has_type t d.
Proof. intros H. unfold has_type. rewrite (fix_record_type _ _ _ _ H). reflexivity. Qed.

Lemma fix_record_is_snapshot d n d' n' :
  fix_record rng d n = inr (d', n') -> is_snapshot d' = is_snapshot d.
Proof. apply fix_record_has_type. Qed.

(** A snapshot record passes through unchanged and draws nothing. *)
Lemma fix_record_snapshot d n :
  is_snapshot d = true -> fix_record rng d n = inr (d, n).
Proof.
  intros Hs. unfold fix_record.
  rewrite py_eq_msg_type by discriminate.
  change (has_type SNAPSHOT_TYPE d) with (is_snapshot d).
  rewrite Hs. reflexivity.
Qed.

Lemma fix_record_version d n d' n' v :
  fix_record rng d n = inr (d', n') ->
  is_snapshot d = false ->
  dict_get "version" d' = Some v -> v = JStr CLAUDE_VERSION.
Proof.
  intros H Hns.
  invert_fix_record d H; try congruence;
    apply dict_in_false in Hver; congruence.
Qed.

Lemma fix_record_gitBranch d n d' n' :
  fix_record rng d n = inr (d', n') ->
  has_type "user" d || has_type "assistant" d = true ->
  dict_get "gitBranch" d'
  = Some (dict_get_default "gitBranch" (JStr DEFAULT_BRANCH) d).
Proof.
  intros H Ht.
  invert_fix_record d H; rewrite ?Hu, ?Ha in Ht; try discriminate;
    unfold dict_get_default;
    first [ apply dict_in_false in Hgit; rewrite Hgit; reflexivity
          | apply dict_in_true in Hgit; destruct Hgit as [w ->]; reflexivity ].
Qed.

Lemma fix_record_requestId d n d' n' :
  fix_record rng d n = inr (d', n') ->
  has_type "assistant" d = true ->
  match dict_get "requestId" d with
  | Some v => dict_get "requestId" d' = Some v /\ n' = n
  | None =>
      dict_get "requestId" d'
      = Some (JStr ("req_" +:+ uuid_hex (uuid4_of_bits (rng n))))
      /\ n' = S n
  end.
Proof.
  intros H Ht.
  invert_fix_record d H; rewrite ?Ha in Ht; try discriminate;
    first [ apply dict_in_false in Hreq; rewrite Hreq; split; reflexivity
          | apply dict_in_true in Hreq; destruct Hreq as [w ->]; split; reflexivity ].
Qed.

Lemma fix_record_thinkingMetadata d n d' n' :
  fix_record rng d n = inr (d', n') ->
  has_type "user" d = true ->
  dict_get "thinkingMetadata" d'
  = Some (dict_get_default "thinkingMetadata" thinking_metadata d).
Proof.
  intros H Ht.
  invert_fix_record d H; rewrite ?Hu in Ht; try discriminate;
    unfold dict_get_default;
    first [ apply dict_in_false in Hthk; rewrite Hthk; reflexivity
          | apply dict_in_true in Hthk; destruct Hthk as [w ->]; reflexivity ].
Qed.

(** The loop body only adds keys, at the end. *)
Lemma fix_record_keys d n d' n' :
  fix_record rng d n = inr (d', n') -> keys_extend d d'.
Proof.
  intros H.
  run_fix_record d H; inversion H; subst; clear H;
    repeat apply keys_extend_set; apply keys_extend_refl.
Qed.

(** Every field of the input other than [version] keeps its value. *)
Lemma fix_record_fields d n d' n' k v :
  fix_record rng d n = inr (d', n') ->
  k <> "version" ->
  dict_get k d = Some v -> dict_get k d' = Some v.
Proof.
  intros H Hk Hv.
  assert (Hin : forall k0, k0 = k -> dict_in k0 d = true)
    by (intros ? ->; apply dict_in_true; eauto).
  run_fix_record d H; inversion H; subst; clear H;
    repeat (rewrite dict_get_set;
            match goal with
            | |- context [String.eqb ?a k] =>
                destruct (String.eqb_spec a k) as [E|E];
                [exfalso;
                 first [ exact (Hk (eq_sym E))
                       | specialize (Hin _ E); congruence ]
                |clear E]
            end);
    assumption.
Qed.

(** What the loop body returns is normal ... *)
Lemma fix_record_normal d n d' n' :
  fix_record rng d n = inr (d', n') -> normal d'.
Proof.
  intros H. destruct (is_snapshot d) eqn:Hs.
  - left. rewrite (fix_record_is_snapshot _ _ _ _ H). exact Hs.
  - right. repeat split.
    + intros v. exact (fix_record_version _ _ _ _ v H Hs).
    + rewrite !(fix_record_has_type _ _ _ _ _ H). intros Ht.
      apply dict_in_true. eexists. exact (fix_record_gitBranch _ _ _ _ H Ht).
    + rewrite (fix_record_has_type _ _ _ _ _ H). intros Ht.
      apply dict_in_true.
      pose proof (fix_record_requestId _ _ _ _ H Ht) as Hr.
      destruct (dict_get "requestId" d); destruct Hr as [Hr _]; eauto.
    + rewrite (fix_record_has_type _ _ _ _ _ H). intros Ht.
      apply dict_in_true. eexists.
      exact (fix_record_thinkingMetadata _ _ _ _ H Ht).
Qed.

(** ... and the loop body leaves a normal record as it is, without a
    draw. *)
Lemma normal_fixpoint o m : normal o -> fix_record rng o m = inr (o, m).
Proof.
  intros [Hsn|(Fv & Fg & Fr & Fk)]; [apply fix_record_snapshot, Hsn|].
  unfold fix_record, Py.bind, Py.ret, uuid4.
  rewrite ?py_eq_msg_type by discriminate.
  change (has_type SNAPSHOT_TYPE o) with (is_snapshot o).
  assert (Hset : dict_in "version" o = true ->
                 dict_set "version" (JStr CLAUDE_VERSION) o = o).
  { intros Hin. apply dict_in_true in Hin. destruct Hin as [v Hv].
    apply dict_set_same. rewrite Hv, (Fv _ Hv). reflexivity. }
  destruct (type_cases o)
    as [(Hs & Hu & Ha)|[(Hs & Hu & Ha)|[(Hs & Hu & Ha)|(Hs & Hu & Ha)]]];
    rewrite Hs, Hu, Ha in *; cbn [andb orb negb] in *;
    try reflexivity;
    destruct (dict_in "version" o) eqn:Hver;
    repeat (progress (try rewrite (Hset eq_refl);
                      try rewrite (Fg eq_refl); try rewrite (Fr eq_refl);
                      try rewrite (Fk eq_refl);
                      rewrite ?andb_false_r;
                      cbn [andb orb negb]));
    reflexivity.
Qed.

Lemma fix_record_idempotent d n d' n' m :
  fix_record rng d n = inr (d', n') -> fix_record rng d' m = inr (d', m).
Proof. intros H. apply normal_fixpoint. exact (fix_record_normal _ _ _ _ H). Qed.

(** The loop body draws once exactly for an assistant record that has no
    [requestId]. *)
Lemma fix_record_draw_count d n d' n' :
  fix_record rng d n = inr (d', n') ->
  n' = (if needs_requestId d then 1 else 0) + n.
Proof.
  intros H. unfold needs_requestId.
  run_fix_record d H; inversion H; subst; clear H;
    rewrite ?Ha, ?Hreq; reflexivity.
Qed.

(** A record of another type changes at most in its [version]. *)
Lemma fix_record_other d n :
  other_type d = true ->
  fix_record rng d n
  = inr (if dict_in "version" d
         then dict_set "version" (JStr CLAUDE_VERSION) d else d, n).
Proof.
  unfold other_type. intros Ho.
  destruct (fix_record rng d n) as [e|[d' n']] eqn:H;
    run_fix_record d H; rewrite ?Hs, ?Hu, ?Ha in Ho; try discriminate;
    inversion H; reflexivity.
Qed.

(** The loop body adds no key besides [gitBranch], [requestId] and
    [thinkingMetadata]. *)
Lemma fix_record_key_origin d n d' n' k :
  fix_record rng d n = inr (d', n') ->
  dict_in k d' = true ->
  dict_in k d = true
  \/ k = "gitBranch" \/ k = "requestId" \/ k = "thinkingMetadata".
Proof.
  intros H.
  run_fix_record d H; inversion H; subst; clear H;
    rewrite ?dict_in_set;
    repeat match goal with
           | |- context [String.eqb ?a k] =>
               destruct (String.eqb_spec a k) as [E|E];
               [subst k; auto|clear E]
           end;
    cbn [orb]; auto.
Qed.

Lemma fix_record_version_in d n d' n' :
  fix_record rng d n = inr (d', n') ->
  dict_in "version" d' = dict_in "version" d.
Proof.
  intros H. invert_fix_record d H; rewrite ?Hver; reflexivity.
Qed.

End RecordFacts.

(** ** The whole list through [fix_lines] *)

Section ListFacts.

Variable rng : nat -> N.

Implicit Types (recs outs : list dict) (n : nat).

Lemma fixed_run_total recs n : exists outs n', fixed_run rng n recs outs n'.
Proof.
  revert n. induction recs as [|i recs IH]; intros n.
  - exists [], n. constructor.
  - destruct (fix_record_total rng i n) as (o & m & Ho).
    destruct (IH m) as (outs & n' & Hrun).
    exists (o :: outs), n'. econstructor; eassumption.
Qed.

Lemma fixed_run_mapM n recs outs n' :
  fixed_run rng n recs outs n' ->
  Py.mapM (fix_msg rng) (map JObj recs) n = inr (map JObj outs, n').
Proof.
  induction 1 as [n|n m n' i o recs outs Ho _ IH]; [reflexivity|].
  cbn [map Py.mapM fix_msg]. unfold Py.bind, Py.ret.
  rewrite Ho, IH. reflexivity.
Qed.

Lemma fixed_run_Forall2 n recs outs n' :
  fixed_run rng n recs outs n' ->
  n <= n' /\
  Forall2 (fun i o => exists k k',
               n <= k /\ k' <= n' /\ fix_record rng i k = inr (o, k'))
          recs outs.
Proof.
  induction 1 as [n|n m n' i o recs outs Ho _ [Hle IH]].
  - split; [lia | constructor].
  - pose proof (fix_record_draws _ _ _ _ _ Ho) as Hd.
    split; [lia|]. constructor.
    + exists n, m. repeat split; [lia | lia | exact Ho].
    + eapply Forall2_impl; [exact IH|].
      intros i' o' (k & k' & ? & ? & ?). exists k, k'.
      repeat split; [lia | lia | assumption].
Qed.

(** Records that are already normal run to themselves without a draw. *)
Lemma fixed_run_normal l m : Forall normal l -> fixed_run rng m l l m.
Proof.
  induction 1 as [|o l Ho _ IH]; econstructor; [|exact IH].
  apply normal_fixpoint, Ho.
Qed.

Lemma has_snapshot_objects recs n :
  has_snapshot (map JObj recs) n = inr (existsb is_snapshot recs, n).
Proof.
  induction recs as [|d recs IH]; [reflexivity|].
  simpl. change (py_opt_eq_str (dict_get "type" d) SNAPSHOT_TYPE)
    with (is_snapshot d).
  destruct (is_snapshot d); [reflexivity | exact IH].
Qed.

Lemma synthesized_length recs n :
  length (synthesized rng recs n)
  = if existsb is_snapshot recs then 0 else match recs with [] => 0 | _ => 1 end.
Proof.
  destruct recs as [|first rest]; [reflexivity|].
  unfold synthesized. destruct (existsb is_snapshot (first :: rest)); reflexivity.
Qed.

Lemma bind_inr {A B} (c : Py.M A) (k : A -> Py.M B) n a n' :
  c n = inr (a, n') -> Py.bind c k n = k a n'.
Proof. intros H. unfold Py.bind. rewrite H. reflexivity. Qed.

Lemma bind_inl {A B} (c : Py.M A) (k : A -> Py.M B) n e :
  c n = inl e -> Py.bind c k n = inl e.
Proof. intros H. unfold Py.bind. rewrite H. reflexivity. Qed.

Lemma synthesize_objects recs n :
  recs <> [] ->
  synthesize rng (map JObj recs) (existsb is_snapshot recs) n
  = inr (map JObj (synthesized rng recs n), length (synthesized rng recs n) + n).
Proof.
  destruct recs as [|first rest]; [congruence|]. intros _.
  unfold synthesize, synthesized.
  destruct (existsb is_snapshot (first :: rest)); reflexivity.
Qed.

(** The run of [fix_lines] on a non-empty list of dicts. *)
Lemma fix_lines_run recs n outs n' :
  recs <> [] ->
  fixed_run rng (length (synthesized rng recs n) + n) recs outs n' ->
  fix_lines rng (map JObj recs) n
  = inr (map JObj (synthesized rng recs n ++ outs), n').
Proof.
  intros Hne Hrun. apply fixed_run_mapM in Hrun.
  unfold fix_lines.
  rewrite (bind_inr _ _ _ _ _ (has_snapshot_objects recs n)).
  rewrite (bind_inr _ _ _ _ _ (synthesize_objects recs n Hne)).
  rewrite (bind_inr _ _ _ _ _ Hrun).
  unfold Py.ret. rewrite map_app. reflexivity.
Qed.

Lemma fix_lines_total recs n :
  recs <> [] ->
  exists outs n',
    fixed_run rng (length (synthesized rng recs n) + n) recs outs n'
    /\ fix_lines rng (map JObj recs) n
       = inr (map JObj (synthesized rng recs n ++ outs), n').
Proof.
  intros Hne.
  destruct (fixed_run_total recs (length (synthesized rng recs n) + n))
    as (outs & n' & Hrun).
  exists outs, n'. split; [exact Hrun | apply fix_lines_run; assumption].
Qed.

Lemma fixed_run_length n recs outs n' :
  fixed_run rng n recs outs n' -> length outs = length recs.
Proof. induction 1; simpl; congruence. Qed.

(** Snapshot records pass through where they are, and no other record
    becomes one. *)
Lemma fixed_run_snapshots n recs outs n' :
  fixed_run rng n recs outs n' ->
  List.filter is_snapshot outs = List.filter is_snapshot recs.
Proof.
  induction 1 as [n|n m n' i o recs outs Ho _ IH]; [reflexivity|].
  simpl. rewrite (fix_record_is_snapshot _ _ _ _ _ Ho).
  destruct (is_snapshot i) eqn:Hs; [|exact IH].
  rewrite fix_record_snapshot in Ho by exact Hs.
  inversion Ho; subst. rewrite IH. reflexivity.
Qed.

Lemma fixed_run_all_normal n recs outs n' :
  fixed_run rng n recs outs n' -> Forall normal outs.
Proof.
  induction 1 as [n|n m n' i o recs outs Ho _ IH]; constructor; [|exact IH].
  exact (fix_record_normal _ _ _ _ _ Ho).
Qed.

Lemma existsb_false_filter (l : list dict) :
  existsb is_snapshot l = false <-> List.filter is_snapshot l = [].
Proof.
  induction l as [|d l IH]; simpl; [tauto|].
  destruct (is_snapshot d); simpl; [split; discriminate | exact IH].
Qed.

Lemma existsb_false_Forall (l : list dict) :
  existsb is_snapshot l = false <-> Forall (fun d => is_snapshot d = false) l.
Proof.
  induction l as [|d l IH]; simpl.
  - split; [constructor | reflexivity].
  - rewrite orb_false_iff, IH. split.
    + intros [? ?]. constructor; assumption.
    + inversion 1; subst. split; assumption.
Qed.

Lemma existsb_true_Exists (l : list dict) :
  existsb is_snapshot l = true <-> Exists (fun d => is_snapshot d = true) l.
Proof.
  induction l as [|d l IH]; simpl.
  - split; [discriminate | inversion 1].
  - rewrite orb_true_iff, IH. split.
    + intros [?|?]; [left | right]; assumption.
    + inversion 1; subst; [left | right]; assumption.
Qed.

Lemma count_snapshots_app (l1 l2 : list dict) :
  count_snapshots (l1 ++ l2) = count_snapshots l1 + count_snapshots l2.
Proof. unfold count_snapshots. rewrite List.filter_app, length_app. reflexivity. Qed.

Lemma count_synthesized recs n :
  recs <> [] ->
  count_snapshots (synthesized rng recs n) + count_snapshots recs
  = Nat.max 1 (count_snapshots recs).
Proof.
  destruct recs as [|first rest]; [congruence|]. intros _.
  unfold synthesized.
  destruct (existsb is_snapshot (first :: rest)) eqn:E.
  - assert (Hc : count_snapshots (first :: rest) <> 0).
    { unfold count_snapshots. intros H0.
      apply length_zero_iff_nil, existsb_false_filter in H0. congruence. }
    change (count_snapshots []) with 0.
    destruct (count_snapshots (first :: rest)); [congruence | reflexivity].
  - apply existsb_false_filter in E. unfold count_snapshots at 2 3.
    rewrite E. reflexivity.
Qed.

(** Filtering both sides of a pointwise relation by tests that agree on
    related elements keeps the relation. *)
Lemma Forall2_filter_agree {A B} (R : A -> B -> Prop) p q l1 l2 :
  Forall2 R l1 l2 ->
  (forall x y, R x y -> p x = q y) ->
  Forall2 R (List.filter p l1) (List.filter q l2).
Proof.
  intros H Hpq. induction H as [|x y l1 l2 Hxy _ IH]; simpl; [constructor|].
  rewrite (Hpq _ _ Hxy). destruct (q y); [constructor|]; assumption.
Qed.

Lemma synthesized_snapshots recs n :
  Forall (fun d => is_snapshot d = true) (synthesized rng recs n).
Proof.
  destruct recs as [|first rest]; [constructor|]. unfold synthesized.
  destruct (existsb is_snapshot (first :: rest)); repeat constructor.
Qed.

Lemma fixed_run_same_record n recs outs n' :
  fixed_run rng n recs outs n' -> Forall2 same_record recs outs.
Proof.
  induction 1 as [n|n m n' i o recs outs Ho _ IH]; constructor; [|exact IH].
  split; [exact (fix_record_keys _ _ _ _ _ Ho)|].
  intros k v. exact (fix_record_fields _ _ _ _ _ k v Ho).
Qed.

Lemma filter_not_snapshot_nil (l : list dict) :
  Forall (fun d => is_snapshot d = true) l -> List.filter not_snapshot l = [].
Proof.
  induction 1 as [|d l Hd _ IH]; [reflexivity|].
  cbn [List.filter]. unfold not_snapshot at 1. rewrite Hd. exact IH.
Qed.

(** The records that are not snapshot records correspond one for one, in
    order, before and after the loop. *)
Lemma fixed_run_others n recs outs n' :
  fixed_run rng n recs outs n' ->
  Forall2 same_record (List.filter not_snapshot recs)
                      (List.filter not_snapshot outs).
Proof.
  intros Hrun.
  assert (HF : Forall2 (fun i o => is_snapshot o = is_snapshot i
                                   /\ same_record i o) recs outs).
  { induction Hrun as [n|n m n' i o recs outs Ho _ IH]; constructor;
      [|exact IH].
    split; [exact (fix_record_is_snapshot _ _ _ _ _ Ho)|].
    split; [exact (fix_record_keys _ _ _ _ _ Ho)|].
    intros k v. exact (fix_record_fields _ _ _ _ _ k v Ho). }
  eapply Forall2_impl.
  - apply Forall2_filter_agree; [exact HF|].
    intros i o [Hs _]. unfold not_snapshot. rewrite Hs. reflexivity.
  - cbn beta. intros i o [_ H]. exact H.
Qed.

(** ** Values that are not objects *)

Lemma objects_are_dicts (lines : list json) :
  Forall (fun j => is_object j = true) lines ->
  exists recs, lines = map JObj recs.
Proof.
  induction 1 as [|j lines Hj _ [recs ->]]; [exists []; reflexivity|].
  destruct j; try discriminate. exists (fields :: recs). reflexivity.
Qed.

Lemma mapM_non_object (lines : list json) n :
  Exists (fun j => is_object j = false) lines ->
  Py.mapM (fix_msg rng) lines n = inl AttributeError.
Proof.
  intros H. revert n.
  induction H as [j lines Hj|j lines _ IH]; intros n; cbn [Py.mapM].
  - apply bind_inl. destruct j; try reflexivity. discriminate.
  - destruct j; try (apply bind_inl; reflexivity).
    destruct (fix_record_total rng fields n) as (o & m & Ho).
    erewrite bind_inr; [|cbn [fix_msg]; erewrite bind_inr by exact Ho;
                          reflexivity].
    apply bind_inl, IH.
Qed.

Lemma has_snapshot_result (lines : list json) n :
  has_snapshot lines n = inl AttributeError
  \/ exists b, has_snapshot lines n = inr (b, n).
Proof.
  induction lines as [|j lines IH]; [right; exists false; reflexivity|].
  destruct j; try (left; reflexivity). cbn [has_snapshot].
  destruct (py_opt_eq_str (dict_get "type" fields) SNAPSHOT_TYPE);
    [right; exists true; reflexivity | exact IH].
Qed.

Lemma synthesize_result (lines : list json) b n :
  lines <> [] ->
  synthesize rng lines b n = inl AttributeError
  \/ exists front m, synthesize rng lines b n = inr (front, m).
Proof.
  intros Hne. unfold synthesize. destruct b; cbn [negb].
  - right. eexists _, _. reflexivity.
  - destruct lines as [|j lines]; [congruence|].
    destruct j; try (left; reflexivity).
    right. eexists _, _. reflexivity.
Qed.

(** A collected value that is not an object makes [fix_lines] raise. *)
Lemma fix_lines_non_object (lines : list json) n :
  Exists (fun j => is_object j = false) lines ->
  fix_lines rng lines n = inl AttributeError.
Proof.
  intros H. unfold fix_lines.
  assert (Hne : lines <> []) by (destruct H; discriminate).
  destruct (has_snapshot_result lines n) as [E|[b E]];
    [apply bind_inl, E | rewrite (bind_inr _ _ _ _ _ E)].
  destruct (synthesize_result lines b n Hne) as [E'|(front & m & E')];
    [apply bind_inl, E' | rewrite (bind_inr _ _ _ _ _ E')].
  apply bind_inl, mapM_non_object, H.
Qed.

End ListFacts.

(** ** Reading the file *)

Section ReadFacts.

Variable strip : string -> string.
Variable json_loads : string -> loads_result.

(** A line that is not blank and parses is among the values read, whatever
    the JSON shape of its value. *)
Lemma read_lines_In (content : list string) (lines : list json) line j :
  read_lines strip json_loads content = inr lines ->
  In line content ->
  strip line <> "" ->
  json_loads (strip line) = Loaded j ->
  In j lines.
Proof.
  intros Hread Hin Hnb Hj. revert lines Hread.
  induction content as [|l content IH]; intros lines Hread; [destruct Hin|].
  cbn [read_lines] in Hread. destruct Hin as [->|Hin].
  - apply String.eqb_neq in Hnb. rewrite Hnb, Hj in Hread.
    destruct (read_lines strip json_loads content); [discriminate|].
    injection Hread as <-. left. reflexivity.
  - destruct (String.eqb (strip l) ""); [exact (IH Hin _ Hread)|].
    destruct (json_loads (strip l)) as [msg| |e];
      [|exact (IH Hin _ Hread)|discriminate].
    destruct (read_lines strip json_loads content) as [e|rest];
      [discriminate|].
    injection Hread as <-. right. exact (IH Hin _ eq_refl).
Qed.

Lemma read_lines_nil (content : list string) :
  Forall (fun line => strip line = ""
                      \/ json_loads (strip line) = JSONDecodeError)
         content ->
  read_lines strip json_loads content = inr [].
Proof.
  induction 1 as [|line content Hl _ IH]; [reflexivity|].
  cbn [read_lines]. destruct (String.eqb_spec (strip line) ""); [exact IH|].
  destruct Hl as [Hl|Hl]; [contradiction|]. rewrite Hl. exact IH.
Qed.

Lemma read_lines_app (a b : list string) :
  read_lines strip json_loads (a ++ b)
  = match read_lines strip json_loads a with
    | inl e => inl e
    | inr la =>
        match read_lines strip json_loads b with
        | inl e => inl e
        | inr lb => inr (la ++ lb)
        end
    end.
Proof.
  induction a as [|line a IH].
  - cbn [app read_lines].
    destruct (read_lines strip json_loads b); reflexivity.
  - cbn [app read_lines].
    destruct (String.eqb (strip line) ""); [exact IH|].
    destruct (json_loads (strip line)) as [msg| |e];
      [|exact IH|reflexivity].
    rewrite IH.
    destruct (read_lines strip json_loads a); [reflexivity|].
    destruct (read_lines strip json_loads b); reflexivity.
Qed.

End ReadFacts.

(** ** The properties of the specification *)

Section Claims.

Variable rng : nat -> N.
Variable strip : string -> string.
Variable json_loads : string -> loads_result.
Variable json_dumps : json -> string.
Variable utf8_encodable : string -> bool.
Variable backup_of : string -> string.

Implicit Types (recs outs : list dict) (n : nat).

(** C1 (as amended): for every non-empty list of records, [fix_lines]
    returns, and its output has as many [file-history-snapshot] records as
    the input when the input has some, and exactly one when it has none;
    so exactly one whenever the input has at most one.  When the input has
    none, the first output record is the synthesized snapshot. *)
Theorem C1_snapshot_count recs n :
  recs <> [] ->
  exists outs n',
    fix_lines rng (map JObj recs) n = inr (map JObj outs, n')
    /\ count_snapshots outs = Nat.max 1 (count_snapshots recs)
    /\ (count_snapshots recs = 0 ->
        exists u t, head outs = Some (make_snapshot u t)).
Proof.
  intros Hne.
  destruct (fix_lines_total rng recs n Hne) as (outs & n' & Hrun & Hfix).
  exists (synthesized rng recs n ++ outs), n'.
  split; [exact Hfix|]. split.
  - rewrite count_snapshots_app. unfold count_snapshots at 2.
    rewrite (fixed_run_snapshots _ _ _ _ _ Hrun).
    apply count_synthesized, Hne.
  - intros H0. apply length_zero_iff_nil, existsb_false_filter in H0.
    destruct recs as [|first rest]; [congruence|].
    unfold synthesized. rewrite H0. eexists _, _. reflexivity.
Qed.

(** C2: for every non-empty list of records none of which is a snapshot
    record, the first output record is the synthesized snapshot: its
    [messageId] and its [snapshot.messageId] are the first input record's
    [uuid] (the string of a freshly drawn UUID when absent), its
    [snapshot.timestamp] is the first input record's [timestamp] (the
    default literal when absent), its [snapshot.trackedFileBackups] is an
    empty mapping and its [isSnapshotUpdate] is false. *)
Theorem C2_synthesized_snapshot (first : dict) (rest : list dict) n :
  Forall (fun d => is_snapshot d = false) (first :: rest) ->
  exists snap inner outs n',
    fix_lines rng (map JObj (first :: rest)) n
    = inr (map JObj (snap :: outs), n')
    /\ dict_get "type" snap = Some (JStr "file-history-snapshot")
    /\ dict_get "messageId" snap
       = Some (match dict_get "uuid" first with
               | Some v => v
               | None => JStr (uuid_str (uuid4_of_bits (rng n)))
               end)
    /\ dict_get "snapshot" snap = Some (JObj inner)
    /\ dict_get "messageId" inner = dict_get "messageId" snap
    /\ dict_get "timestamp" inner
       = Some (match dict_get "timestamp" first with
               | Some v => v
               | None => JStr "2025-10-29T10:00:00.000Z"
               end)
    /\ dict_get "trackedFileBackups" inner = Some (JObj [])
    /\ dict_get "isSnapshotUpdate" snap = Some (JBool false).
Proof.
  intros Hno. apply existsb_false_Forall in Hno.
  destruct (fix_lines_total rng (first :: rest) n) as (outs & n' & _ & Hfix);
    [discriminate|].
  unfold synthesized in Hfix. rewrite Hno in Hfix.
  eexists _, _, outs, n'. split; [exact Hfix|].
  repeat split; reflexivity.
Qed.

(** C4: for every list of records that contains a snapshot record, the
    output has exactly as many records as the input, each the fixed form
    of the input record at its position, so none is synthesized. *)
Theorem C4_no_snapshot_added recs n :
  Exists (fun d => is_snapshot d = true) recs ->
  exists outs n',
    fix_lines rng (map JObj recs) n = inr (map JObj outs, n')
    /\ length outs = length recs
    /\ count_snapshots outs = count_snapshots recs
    /\ Forall2 same_record recs outs.
Proof.
  intros Hex.
  assert (Hne : recs <> []) by (destruct Hex; discriminate).
  apply existsb_true_Exists in Hex.
  destruct (fix_lines_total rng recs n Hne) as (outs & n' & Hrun & Hfix).
  assert (Hs : synthesized rng recs n = []).
  { destruct recs as [|first rest]; [reflexivity|].
    unfold synthesized. rewrite Hex. reflexivity. }
  rewrite Hs in Hfix, Hrun. exists outs, n'.
  split; [exact Hfix|]. split; [exact (fixed_run_length _ _ _ _ _ Hrun)|].
  split; [|exact (fixed_run_same_record _ _ _ _ _ Hrun)].
  unfold count_snapshots. rewrite (fixed_run_snapshots _ _ _ _ _ Hrun).
  reflexivity.
Qed.

(** C5 (as amended): for every non-empty list of records, every output
    record that is not a snapshot record and has a [version] field has the
    value ["2.0.28"] there, whatever the input held. *)
Theorem C5_version_overwritten recs n :
  recs <> [] ->
  exists outs n',
    fix_lines rng (map JObj recs) n = inr (map JObj outs, n')
    /\ Forall (fun o => is_snapshot o = false ->
                        forall v, dict_get "version" o = Some v ->
                                  v = JStr "2.0.28") outs.
Proof.
  intros Hne.
  destruct (fix_lines_total rng recs n Hne) as (outs & n' & Hrun & Hfix).
  exists (synthesized rng recs n ++ outs), n'. split; [exact Hfix|].
  apply Forall_app. split.
  - eapply Forall_impl; [apply synthesized_snapshots|].
    cbn beta. intros o Ho Hn. congruence.
  - eapply Forall_impl; [exact (fixed_run_all_normal _ _ _ _ _ Hrun)|].
    cbn beta. intros o [Ho|(Hv & _)] Hn; [congruence | exact Hv].
Qed.

(** C3: when the lines of the file that parse are the records [recs],
    [fix_lines] returns, and the output records that are not snapshot
    records are, one for one and in the same order, the input records that
    are not snapshot records, each with its keys in place and its fields
    (other than [version]) unchanged: none is dropped or moved. *)
Theorem C3_order_preserved (content : list string) recs n :
  read_lines strip json_loads content = inr (map JObj recs) ->
  recs <> [] ->
  exists lines outs n',
    read_lines strip json_loads content = inr lines
    /\ fix_lines rng lines n = inr (map JObj outs, n')
    /\ Forall2 same_record (List.filter not_snapshot recs)
                           (List.filter not_snapshot outs).
Proof.
  intros Hread Hne.
  destruct (fix_lines_total rng recs n Hne) as (outs & n' & Hrun & Hfix).
  exists (map JObj recs), (synthesized rng recs n ++ outs), n'.
  split; [exact Hread|]. split; [exact Hfix|].
  rewrite List.filter_app.
  rewrite (filter_not_snapshot_nil _ (synthesized_snapshots rng recs n)).
  exact (fixed_run_others _ _ _ _ _ Hrun).
Qed.

(** C6: for every non-empty list of records, every output record of type
    [assistant] has a [requestId].  Every input record keeps its type, and
    an input record of type [assistant] comes out with a [requestId]: its
    own when that was present, and otherwise ["req_"] followed by the hex
    form of a UUID drawn during the run. *)
Theorem C6_assistant_requestId recs n :
  recs <> [] ->
  exists outs n',
    fix_lines rng (map JObj recs) n
    = inr (map JObj (synthesized rng recs n ++ outs), n')
    /\ Forall (fun o => has_type "assistant" o = true ->
                        dict_in "requestId" o = true)
              (synthesized rng recs n ++ outs)
    /\ Forall2 (fun i o =>
                  dict_get "type" o = dict_get "type" i
                  /\ (has_type "assistant" i = true ->
                      match dict_get "requestId" i with
                      | Some v => dict_get "requestId" o = Some v
                      | None =>
                          exists k, n <= k < n'
                            /\ dict_get "requestId" o
                               = Some (JStr ("req_" +:+
                                             uuid_hex
                                               (uuid4_of_bits (rng k))))
                      end)) recs outs.
Proof.
  intros Hne.
  destruct (fix_lines_total rng recs n Hne) as (outs & n' & Hrun & Hfix).
  exists outs, n'. split; [exact Hfix|]. split.
  - apply Forall_app. split.
    + eapply Forall_impl; [apply synthesized_snapshots|].
      cbn beta. intros o Ho Ha.
      destruct (type_cases o) as [(?&?&?)|[(?&?&?)|[(?&?&?)|(?&?&?)]]];
        congruence.
    + eapply Forall_impl; [exact (fixed_run_all_normal _ _ _ _ _ Hrun)|].
      cbn beta. intros o [Ho|(_ & _ & Hr & _)] Ha; [|exact (Hr Ha)].
      destruct (type_cases o) as [(?&?&?)|[(?&?&?)|[(?&?&?)|(?&?&?)]]];
        congruence.
  - destruct (fixed_run_Forall2 _ _ _ _ _ Hrun) as [_ HF].
    eapply Forall2_impl; [exact HF|].
    cbn beta. intros i o (k & k' & Hk & Hk' & Ho).
    split; [exact (fix_record_type _ _ _ _ _ Ho)|]. intros Ha.
    pose proof (fix_record_requestId _ _ _ _ _ Ho Ha) as Hr.
    destruct (dict_get "requestId" i); destruct Hr as [Hr Hn]; [exact Hr|].
    exists k. split; [lia | exact Hr].
Qed.

(** C7: for every non-empty list of records, every output record of type
    [user] or [assistant] has a [gitBranch].  Every input record keeps its
    type, and an input record of type [user] or [assistant] comes out with
    a [gitBranch]: its own when that was present, and ["main"]
    otherwise. *)
Theorem C7_gitBranch recs n :
  recs <> [] ->
  exists outs n',
    fix_lines rng (map JObj recs) n
    = inr (map JObj (synthesized rng recs n ++ outs), n')
    /\ Forall (fun o => has_type "user" o || has_type "assistant" o = true ->
                        dict_in "gitBranch" o = true)
              (synthesized rng recs n ++ outs)
    /\ Forall2 (fun i o =>
                  dict_get "type" o = dict_get "type" i
                  /\ (has_type "user" i || has_type "assistant" i = true ->
                      dict_get "gitBranch" o
                      = Some (match dict_get "gitBranch" i with
                              | Some v => v
                              | None => JStr "main"
                              end))) recs outs.
Proof.
  intros Hne.
  destruct (fix_lines_total rng recs n Hne) as (outs & n' & Hrun & Hfix).
  exists outs, n'. split; [exact Hfix|]. split.
  - apply Forall_app. split.
    + eapply Forall_impl; [apply synthesized_snapshots|].
      cbn beta. intros o Ho Ht. exfalso.
      destruct (type_cases o) as [(?&Hu&Ha)|[(?&?&?)|[(?&?&?)|(?&?&?)]]];
        try congruence.
      rewrite Hu, Ha in Ht. discriminate.
    + eapply Forall_impl; [exact (fixed_run_all_normal _ _ _ _ _ Hrun)|].
      cbn beta. intros o [Ho|(_ & Hg & _)] Ht; [exfalso|exact (Hg Ht)].
      destruct (type_cases o) as [(?&Hu&Ha)|[(?&?&?)|[(?&?&?)|(?&?&?)]]];
        try congruence.
      rewrite Hu, Ha in Ht. discriminate.
  - destruct (fixed_run_Forall2 _ _ _ _ _ Hrun) as [_ HF].
    eapply Forall2_impl; [exact HF|].
    cbn beta. intros i o (k & k' & _ & _ & Ho).
    split; [exact (fix_record_type _ _ _ _ _ Ho)|]. intros Ht.
    exact (fix_record_gitBranch _ _ _ _ _ Ho Ht).
Qed.

(** C8: when the path names no file, or every line of the file is blank
    or fails to parse, [fix_session] returns failure and leaves the
    filesystem as it was: no backup is created and nothing is written. *)
Theorem C8_failure_leaves_filesystem
    (path : string) (fs : gmap string node) n :
  fs !! path = None
  \/ (exists content,
        fs !! path = Some (Text content)
        /\ Forall (fun line => strip line = ""
                               \/ json_loads (strip line) = JSONDecodeError)
                  content) ->
  fix_session rng strip json_loads json_dumps utf8_encodable backup_of
    path fs n
  = (Returned false, fs).
Proof.
  unfold fix_session. intros [->|(content & -> & Hbad)]; [reflexivity|].
  rewrite (read_lines_nil _ _ _ Hbad). reflexivity.
Qed.

(** C9: for every non-empty list of records, [fix_lines] applied to its
    own output returns that output again, and draws no identifier. *)
Theorem C9_fix_lines_idempotent recs n :
  recs <> [] ->
  exists out n',
    fix_lines rng (map JObj recs) n = inr (out, n')
    /\ forall m, fix_lines rng out m = inr (out, m).
Proof.
  intros Hne.
  destruct (fix_lines_total rng recs n Hne) as (outs & n' & Hrun & Hfix).
  set (all := synthesized rng recs n ++ outs) in *.
  exists (map JObj all), n'. split; [exact Hfix|]. intros m.
  assert (Hall : all <> []).
  { intros E. apply (f_equal (@length dict)) in E. unfold all in E.
    rewrite length_app, (fixed_run_length _ _ _ _ _ Hrun) in E.
    destruct recs; [congruence | simpl in E; lia]. }
  assert (Hsnap : existsb is_snapshot all = true).
  { destruct (existsb is_snapshot all) eqn:E; [reflexivity|].
    apply existsb_false_filter in E.
    apply (f_equal (@length dict)) in E.
    change (count_snapshots all = 0) in E. unfold all in E.
    rewrite count_snapshots_app in E. unfold count_snapshots at 2 in E.
    rewrite (fixed_run_snapshots _ _ _ _ _ Hrun) in E.
    change (length (List.filter is_snapshot recs))
      with (count_snapshots recs) in E.
    rewrite (count_synthesized rng recs n Hne) in E. lia. }
  assert (Hfront : synthesized rng all m = []).
  { destruct all as [|d l]; [reflexivity|].
    unfold synthesized. rewrite Hsnap. reflexivity. }
  assert (Hnormal : Forall normal all).
  { apply Forall_app. split.
    - eapply Forall_impl; [apply synthesized_snapshots|].
      cbn beta. intros o Ho. left. exact Ho.
    - exact (fixed_run_all_normal _ _ _ _ _ Hrun). }
  rewrite (fix_lines_run rng all m all m Hall).
  - rewrite Hfront. reflexivity.
  - rewrite Hfront. apply fixed_run_normal, Hnormal.
Qed.

(** C10: a line that is not blank and parses is collected whatever the
    shape of its value; [fix_lines] returns when every collected value is
    an object; and when some collected value is not an object it raises
    [AttributeError], which nothing catches, so that [fix_session] ends
    there with the filesystem untouched. *)
Theorem C10_non_object_line
    (path : string) (fs : gmap string node)
    (content : list string) (lines : list json) n :
  fs !! path = Some (Text content) ->
  read_lines strip json_loads content = inr lines ->
  (forall line j,
      In line content -> strip line <> "" ->
      json_loads (strip line) = Loaded j ->
      In j lines)
  /\ (lines <> [] ->
      Forall (fun j => is_object j = true) lines ->
      exists out n', fix_lines rng lines n = inr (out, n'))
  /\ (Exists (fun j => is_object j = false) lines ->
      fix_lines rng lines n = inl AttributeError
      /\ fix_session rng strip json_loads json_dumps utf8_encodable backup_of
           path fs n
         = (Raised AttributeError, fs)).
Proof.
  intros Hfile Hread. split; [|split].
  - intros line j. exact (read_lines_In _ _ _ _ _ _ Hread).
  - intros Hne Hobj.
    destruct (objects_are_dicts _ Hobj) as [recs ->].
    assert (Hne' : recs <> []) by (intros ->; apply Hne; reflexivity).
    destruct (fix_lines_total rng recs n Hne') as (outs & n' & _ & Hfix).
    eexists _, _. exact Hfix.
  - intros Hex. split; [exact (fix_lines_non_object rng _ n Hex)|].
    unfold fix_session. rewrite Hfile, Hread.
    rewrite (fix_lines_non_object rng _ n Hex).
    destruct lines; [inversion Hex | reflexivity].
Qed.

End Claims.

(** ** Further properties of the program *)

Section RunFacts.

Variable rng : nat -> N.

Implicit Types (recs outs : list dict) (n : nat).

Lemma count_needs_cons (d : dict) (l : list dict) :
  count_needs_requestId (d :: l)
  = (if needs_requestId d then 1 else 0) + count_needs_requestId l.
Proof.
  unfold count_needs_requestId. cbn [List.filter].
  destruct (needs_requestId d); reflexivity.
Qed.

(** The loop draws once per assistant record without [requestId]. *)
Lemma fixed_run_draws n recs outs n' :
  fixed_run rng n recs outs n' -> n' = count_needs_requestId recs + n.
Proof.
  induction 1 as [n|n m n' i o recs outs Ho _ IH]; [reflexivity|].
  rewrite count_needs_cons, IH, (fix_record_draw_count _ _ _ _ _ Ho). lia.
Qed.

(** The record at position [p] goes through the loop body with as many
    draws made as there are records before it that needed one. *)
Lemma fixed_run_lookup n recs outs n' (p : nat) (i : dict) :
  fixed_run rng n recs outs n' ->
  recs !! p = Some i ->
  exists o k',
    outs !! p = Some o
    /\ fix_record rng i (count_needs_requestId (take p recs) + n) = inr (o, k').
Proof.
  intros Hrun. revert p.
  induction Hrun as [n|n m n' i0 o recs outs Ho _ IH]; intros p Hp;
    [discriminate|].
  destruct p as [|p].
  - inversion Hp; subst. exists o, m. split; [reflexivity | exact Ho].
  - destruct (IH p Hp) as (o' & k' & Hout & Hfix).
    exists o', k'. split; [exact Hout|].
    cbn [take]. rewrite count_needs_cons.
    rewrite (fix_record_draw_count _ _ _ _ _ Ho) in Hfix.
    replace ((if needs_requestId i0 then 1 else 0)
             + count_needs_requestId (take p recs) + n)
      with (count_needs_requestId (take p recs)
            + ((if needs_requestId i0 then 1 else 0) + n)) by lia.
    exact Hfix.
Qed.

(** A later record that needs a draw gets a later one. *)
Lemma count_needs_take_lt recs (p q : nat) (i : dict) :
  recs !! p = Some i ->
  needs_requestId i = true ->
  p < q ->
  count_needs_requestId (take p recs) < count_needs_requestId (take q recs).
Proof.
  revert p q. induction recs as [|d recs IH]; intros p q Hp Hi Hpq;
    [discriminate|].
  destruct q as [|q]; [lia|]. destruct p as [|p].
  - inversion Hp; subst. cbn [take]. rewrite count_needs_cons, Hi.
    change (count_needs_requestId []) with 0. lia.
  - cbn [take]. rewrite !count_needs_cons.
    assert (p < q) as Hlt by lia.
    specialize (IH p q Hp Hi Hlt). lia.
Qed.

(** The output of [fix_lines] on dicts is a fixed point of [fix_lines]. *)
Lemma fix_lines_output_fixed recs n outs n' m :
  recs <> [] ->
  fixed_run rng (length (synthesized rng recs n) + n) recs outs n' ->
  fix_lines rng (map JObj (synthesized rng recs n ++ outs)) m
  = inr (map JObj (synthesized rng recs n ++ outs), m).
Proof.
  intros Hne Hrun.
  set (all := synthesized rng recs n ++ outs).
  assert (Hall : all <> []).
  { intros E. apply (f_equal (@length dict)) in E. unfold all in E.
    rewrite length_app, (fixed_run_length _ _ _ _ _ Hrun) in E.
    destruct recs; [congruence | simpl in E; lia]. }
  assert (Hsnap : existsb is_snapshot all = true).
  { destruct (existsb is_snapshot all) eqn:E; [reflexivity|].
    apply existsb_false_filter in E.
    apply (f_equal (@length dict)) in E.
    change (count_snapshots all = 0) in E. unfold all in E.
    rewrite count_snapshots_app in E. unfold count_snapshots at 2 in E.
    rewrite (fixed_run_snapshots _ _ _ _ _ Hrun) in E.
    change (length (List.filter is_snapshot recs))
      with (count_snapshots recs) in E.
    rewrite (count_synthesized rng recs n Hne) in E. lia. }
  assert (Hfront : synthesized rng all m = []).
  { destruct all as [|d l]; [reflexivity|].
    unfold synthesized. rewrite Hsnap. reflexivity. }
  assert (Hnormal : Forall normal all).
  { apply Forall_app. split.
    - eapply Forall_impl; [apply synthesized_snapshots|].
      cbn beta. intros o Ho. left. exact Ho.
    - exact (fixed_run_all_normal _ _ _ _ _ Hrun). }
  rewrite (fix_lines_run rng all m all m Hall).
  - rewrite Hfront. reflexivity.
  - rewrite Hfront. apply fixed_run_normal, Hnormal.
Qed.


Lemma forallb_is_object (lines : list json) :
  forallb is_object lines = true
  <-> Forall (fun j => is_object j = true) lines.
Proof.
  induction lines as [|j lines IH]; cbn [forallb].
  - split; [constructor | reflexivity].
  - rewrite andb_true_iff, IH. split.
    + intros [? ?]. constructor; assumption.
    + inversion 1; subst. split; assumption.
Qed.

End RunFacts.

Section SessionFacts.

Variable rng : nat -> N.
Variable strip : string -> string.
Variable json_loads : string -> loads_result.
Variable json_dumps : json -> string.
Variable utf8_encodable : string -> bool.
Variable backup_of : string -> string.

Local Abbreviation rd := (read_lines strip json_loads).
Local Abbreviation ln := (line_of json_dumps).
Local Abbreviation wr := (write_lines json_dumps utf8_encodable).
Local Abbreviation run :=
  (fix_session rng strip json_loads json_dumps utf8_encodable backup_of).

(** Reading the lines written for values that the serializer and the
    parser take back and forth gives the values. *)
Lemma read_lines_written (out : list json) :
  Forall (fun j => strip (ln j) <> ""
                   /\ json_loads (strip (ln j)) = Loaded j) out ->
  rd (map ln out) = inr out.
Proof.
  induction 1 as [|j out [Hnb Hj] _ IH]; [reflexivity|].
  cbn [map read_lines].
  apply String.eqb_neq in Hnb. rewrite Hnb, Hj, IH. reflexivity.
Qed.

(** When every line encodes, the loop of line 99 writes them all. *)
Lemma write_lines_all (out : list json) :
  all_encodable json_dumps utf8_encodable out ->
  wr out = (map ln out, true).
Proof.
  induction 1 as [|j out Hj _ IH]; [reflexivity|].
  cbn [write_lines map]. unfold line_of in Hj. rewrite Hj, IH. reflexivity.
Qed.


Lemma not_all_objects (lines : list json) :
  Exists (fun j => is_object j = false) lines ->
  forallb is_object lines = false.
Proof.
  induction 1 as [j lines Hj|j lines _ IH]; cbn [forallb].
  - rewrite Hj. reflexivity.
  - rewrite IH. apply andb_false_r.
Qed.

(** A call on a file of records gets to the rename unless the backup path
    names a directory, and then ends as the writing loop does. *)
Lemma fix_session_renames
    (path : string) (fs : gmap string node) (content : list string)
    (recs : list dict) n (out : list json) n' :
  fs !! path = Some (Text content) ->
  rd content = inr (map JObj recs) ->
  recs <> [] ->
  fs !! backup_of path <> Some Dir ->
  fix_lines rng (map JObj recs) n = inr (out, n') ->
  run path fs n
  = (if (wr out).2 then Returned true else Raised UnicodeEncodeError,
     <[path := Text (wr out).1]>
       (<[backup_of path := Text content]> (delete path fs))).
Proof.
  intros Hfile Hread Hne Hbk Hfix.
  unfold fix_session. rewrite Hfile, Hread, Hfix.
  destruct recs as [|r recs]; [congruence|]. cbn [map].
  destruct (wr out) as [w ok].
  destruct (fs !! backup_of path) as [[| |c]|]; try reflexivity.
  congruence.
Qed.


End SessionFacts.

Section MoreProperties.

Variable rng : nat -> N.
Variable strip : string -> string.
Variable json_loads : string -> loads_result.
Variable json_dumps : json -> string.
Variable utf8_encodable : string -> bool.
Variable backup_of : string -> string.

Implicit Types (recs outs : list dict) (n : nat).

(** Lines 82-88: every output record of type [user] has a
    [thinkingMetadata].  Every input record keeps its type, and an input
    record of type [user] comes out with a [thinkingMetadata]: its own
    when that was present and the default object otherwise. *)
Theorem user_thinkingMetadata recs n :
  recs <> [] ->
  exists outs n',
    fix_lines rng (map JObj recs) n
    = inr (map JObj (synthesized rng recs n ++ outs), n')
    /\ Forall (fun o => has_type "user" o = true ->
                        dict_in "thinkingMetadata" o = true)
              (synthesized rng recs n ++ outs)
    /\ Forall2 (fun i o =>
                  dict_get "type" o = dict_get "type" i
                  /\ (has_type "user" i = true ->
                      dict_get "thinkingMetadata" o
                      = Some (match dict_get "thinkingMetadata" i with
                              | Some v => v
                              | None =>
                                  JObj [("level", JStr "high");
                                        ("disabled", JBool false);
                                        ("triggers", JArr [])]
                              end))) recs outs.
Proof.
  intros Hne.
  destruct (fix_lines_total rng recs n Hne) as (outs & n' & Hrun & Hfix).
  exists outs, n'. split; [exact Hfix|]. split.
  - apply Forall_app. split.
    + eapply Forall_impl; [apply synthesized_snapshots|].
      cbn beta. intros o Ho Hu.
      destruct (type_cases o) as [(?&?&?)|[(?&?&?)|[(?&?&?)|(?&?&?)]]];
        congruence.
    + eapply Forall_impl; [exact (fixed_run_all_normal _ _ _ _ _ Hrun)|].
      cbn beta. intros o [Ho|(_ & _ & _ & Hk)] Hu; [|exact (Hk Hu)].
      destruct (type_cases o) as [(?&?&?)|[(?&?&?)|[(?&?&?)|(?&?&?)]]];
        congruence.
  - destruct (fixed_run_Forall2 _ _ _ _ _ Hrun) as [_ HF].
    eapply Forall2_impl; [exact HF|].
    cbn beta. intros i o (k & k' & _ & _ & Ho).
    split; [exact (fix_record_type _ _ _ _ _ Ho)|]. intros Hu.
    exact (fix_record_thinkingMetadata _ _ _ _ _ Ho Hu).
Qed.

(** Lines 47 and 80: a run on a non-empty list of records draws one UUID
    for the snapshot when the input has no snapshot record (whether or not
    the first record has a [uuid]) and one for each assistant record without
    [requestId], and no other. *)
Theorem draws_made recs n :
  recs <> [] ->
  exists out,
    fix_lines rng (map JObj recs) n
    = inr (out,
           count_needs_requestId recs
           + (if existsb is_snapshot recs then 0 else 1) + n).
Proof.
  intros Hne.
  destruct (fix_lines_total rng recs n Hne) as (outs & n' & Hrun & Hfix).
  eexists. rewrite Hfix. f_equal. f_equal.
  rewrite (fixed_run_draws _ _ _ _ _ Hrun), synthesized_length.
  destruct recs; [congruence|].
  destruct (existsb is_snapshot (d :: recs)); lia.
Qed.

(** Line 80: the [requestId] given to the record at position [p] comes from
    a draw of its own: the draw after those of the snapshot and of the
    records before it, and before those of the records after it. *)
Theorem requestId_own_draw recs n (p : nat) (i : dict) :
  recs !! p = Some i ->
  needs_requestId i = true ->
  exists outs n' o,
    fix_lines rng (map JObj recs) n
    = inr (map JObj (synthesized rng recs n ++ outs), n')
    /\ outs !! p = Some o
    /\ dict_get "requestId" o
       = Some (JStr ("req_" +:+
                     uuid_hex
                       (uuid4_of_bits
                          (rng (count_needs_requestId (take p recs)
                                + length (synthesized rng recs n) + n)))))
    /\ (forall q, p < q ->
           count_needs_requestId (take p recs)
           < count_needs_requestId (take q recs)).
Proof.
  intros Hp Hi.
  assert (Hne : recs <> []) by (intros ->; discriminate).
  destruct (fix_lines_total rng recs n Hne) as (outs & n' & Hrun & Hfix).
  destruct (fixed_run_lookup _ _ _ _ _ _ _ Hrun Hp) as (o & k' & Ho & Hfixp).
  exists outs, n', o. split; [exact Hfix|]. split; [exact Ho|]. split.
  - unfold needs_requestId in Hi. apply andb_true_iff in Hi.
    destruct Hi as [Ha Hr]. apply negb_true_iff, dict_in_false in Hr.
    pose proof (fix_record_requestId _ _ _ _ _ Hfixp Ha) as H.
    rewrite Hr in H. destruct H as [H _]. rewrite H.
    replace (count_needs_requestId (take p recs)
             + length (synthesized rng recs n) + n)
      with (count_needs_requestId (take p recs)
            + (length (synthesized rng recs n) + n)) by lia.
    reflexivity.
  - intros q Hq. exact (count_needs_take_lt _ _ _ _ Hp Hi Hq).
Qed.

(** Lines 58 and 90: the output has one record per input record, and one
    more in front when the input has no snapshot record. *)
Theorem output_length recs n :
  recs <> [] ->
  exists out n',
    fix_lines rng (map JObj recs) n = inr (out, n')
    /\ length out
       = (if existsb is_snapshot recs then 0 else 1) + length recs.
Proof.
  intros Hne.
  destruct (fix_lines_total rng recs n Hne) as (outs & n' & Hrun & Hfix).
  eexists _, _. split; [exact Hfix|].
  rewrite length_map, length_app, (fixed_run_length _ _ _ _ _ Hrun),
    synthesized_length.
  destruct recs; [congruence | reflexivity].
Qed.

(** Lines 63-68: no record changes its [type], and a snapshot record of the
    input is in the output as it was, at its position after the synthesized
    front. *)
Theorem snapshots_untouched recs n :
  recs <> [] ->
  exists outs n',
    fix_lines rng (map JObj recs) n
    = inr (map JObj (synthesized rng recs n ++ outs), n')
    /\ Forall2 (fun i o => dict_get "type" o = dict_get "type" i
                           /\ (is_snapshot i = true -> o = i)) recs outs.
Proof.
  intros Hne.
  destruct (fix_lines_total rng recs n Hne) as (outs & n' & Hrun & Hfix).
  exists outs, n'. split; [exact Hfix|].
  destruct (fixed_run_Forall2 _ _ _ _ _ Hrun) as [_ HF].
  eapply Forall2_impl; [exact HF|].
  cbn beta. intros i o (k & k' & _ & _ & Ho).
  split; [exact (fix_record_type _ _ _ _ _ Ho)|].
  intros Hs. rewrite fix_record_snapshot in Ho by exact Hs. congruence.
Qed.

(** Lines 70-88: the loop keeps every key of a record in its place, adds
    no key other than [gitBranch], [requestId] and [thinkingMetadata], and
    never gives a [version] to a record that had none. *)
Theorem keys_only_added recs n :
  recs <> [] ->
  exists outs n',
    fix_lines rng (map JObj recs) n
    = inr (map JObj (synthesized rng recs n ++ outs), n')
    /\ Forall2 (fun i o =>
                  keys_extend i o
                  /\ (forall k, dict_in k o = true ->
                                dict_in k i = true
                                \/ k = "gitBranch" \/ k = "requestId"
                                \/ k = "thinkingMetadata")
                  /\ dict_in "version" o = dict_in "version" i) recs outs.
Proof.
  intros Hne.
  destruct (fix_lines_total rng recs n Hne) as (outs & n' & Hrun & Hfix).
  exists outs, n'. split; [exact Hfix|].
  destruct (fixed_run_Forall2 _ _ _ _ _ Hrun) as [_ HF].
  eapply Forall2_impl; [exact HF|].
  cbn beta. intros i o (k & k' & _ & _ & Ho).
  split; [exact (fix_record_keys _ _ _ _ _ Ho)|].
  split; [|exact (fix_record_version_in _ _ _ _ _ Ho)].
  intros key. exact (fix_record_key_origin _ _ _ _ _ key Ho).
Qed.

(** Lines 63-90: a record whose type is none of [file-history-snapshot],
    [user] and [assistant] (or that has no string [type] at all) comes out
    with its [version] overwritten when it has one, and otherwise as it
    was. *)
Theorem other_records_version_only recs n :
  recs <> [] ->
  exists outs n',
    fix_lines rng (map JObj recs) n
    = inr (map JObj (synthesized rng recs n ++ outs), n')
    /\ Forall2 (fun i o =>
                  other_type i = true ->
                  o = if dict_in "version" i
                      then dict_set "version" (JStr "2.0.28") i else i)
               recs outs.
Proof.
  intros Hne.
  destruct (fix_lines_total rng recs n Hne) as (outs & n' & Hrun & Hfix).
  exists outs, n'. split; [exact Hfix|].
  destruct (fixed_run_Forall2 _ _ _ _ _ Hrun) as [_ HF].
  eapply Forall2_impl; [exact HF|].
  cbn beta. intros i o (k & k' & _ & _ & Ho) Hother.
  rewrite (fix_record_other _ _ _ Hother) in Ho.
  injection Ho as <- _. reflexivity.
Qed.

(** Lines 21-32: a line that is blank or does not parse contributes
    nothing, wherever it stands: reading the file ends as reading the file
    without it. *)
Theorem blank_or_bad_line_ignored (before after : list string) (line : string) :
  strip line = "" \/ json_loads (strip line) = JSONDecodeError ->
  read_lines strip json_loads (before ++ line :: after)
  = read_lines strip json_loads (before ++ after).
Proof.
  intros Hline. rewrite !read_lines_app.
  destruct (read_lines strip json_loads before); [reflexivity|].
  cbn [read_lines].
  destruct (String.eqb_spec (strip line) ""); [reflexivity|].
  destruct Hline as [Hline|Hline]; [contradiction|].
  rewrite Hline. reflexivity.
Qed.




(** Lines 92-100, twice: a second call on the file a first call wrote,
    with a serializer and a parser that take the written records back and
    forth, returns [True] again and writes the same lines; but the backup
    then holds those lines and no longer the original file. *)
Theorem second_run_overwrites_backup
    (path : string) (fs : gmap string node)
    (content : list string) recs n (out : list json) n' m :
  fs !! path = Some (Text content) ->
  read_lines strip json_loads content = inr (map JObj recs) ->
  recs <> [] ->
  fs !! backup_of path <> Some Dir ->
  backup_of path <> path ->
  fix_lines rng (map JObj recs) n = inr (out, n') ->
  all_encodable json_dumps utf8_encodable out ->
  Forall (fun j => strip (line_of json_dumps j) <> ""
                   /\ json_loads (strip (line_of json_dumps j)) = Loaded j)
         out ->
  exists fs1 fs2,
    fix_session rng strip json_loads json_dumps utf8_encodable backup_of
      path fs n
    = (Returned true, fs1)
    /\ fix_session rng strip json_loads json_dumps utf8_encodable backup_of
         path fs1 m
       = (Returned true, fs2)
    /\ fs1 !! path = Some (Text (map (line_of json_dumps) out))
    /\ fs1 !! backup_of path = Some (Text content)
    /\ fs2 !! path = Some (Text (map (line_of json_dumps) out))
    /\ fs2 !! backup_of path = Some (Text (map (line_of json_dumps) out)).
Proof.
  intros Hfile Hread Hne Hnd Hbk Hfix Henc Hrt.
  destruct (fix_lines_total rng recs n Hne) as (outs & k & Hrun & Hfix').
  rewrite Hfix in Hfix'. injection Hfix' as Hout _.
  set (all := synthesized rng recs n ++ outs) in *.
  assert (Hagain : fix_lines rng (map JObj all) m = inr (out, m)).
  { rewrite Hout.
    exact (fix_lines_output_fixed rng recs n outs k m Hne Hrun). }
  assert (Hall : all <> []).
  { intros E. apply (f_equal (@length dict)) in E. unfold all in E.
    rewrite length_app, (fixed_run_length _ _ _ _ _ Hrun) in E.
    destruct recs; [congruence | simpl in E; lia]. }
  pose proof (read_lines_written strip json_loads json_dumps out Hrt) as Hback.
  rewrite Hout in Hback at 2.
  set (fs1 := <[path := Text (map (line_of json_dumps) out)]>
                (<[backup_of path := Text content]> (delete path fs))).
  assert (H1 : fix_session rng strip json_loads json_dumps utf8_encodable
                 backup_of path fs n = (Returned true, fs1)).
  { rewrite (fix_session_renames rng strip json_loads json_dumps
               utf8_encodable backup_of path fs content recs n out n'
               Hfile Hread Hne Hnd Hfix).
    rewrite (write_lines_all _ _ _ Henc). reflexivity. }
  assert (Hp1 : fs1 !! path = Some (Text (map (line_of json_dumps) out)))
    by apply lookup_insert_eq.
  assert (Hb1 : fs1 !! backup_of path = Some (Text content)).
  { unfold fs1. rewrite lookup_insert_ne by congruence.
    apply lookup_insert_eq. }
  assert (Hnd1 : fs1 !! backup_of path <> Some Dir)
    by (rewrite Hb1; discriminate).
  exists fs1. eexists. split; [exact H1|]. split.
  { rewrite (fix_session_renames rng strip json_loads json_dumps
               utf8_encodable backup_of path fs1 _ all m out m
               Hp1 Hback Hall Hnd1 Hagain).
    rewrite (write_lines_all _ _ _ Henc). reflexivity. }
  split; [exact Hp1|]. split; [exact Hb1|].
  split; [apply lookup_insert_eq|].
  rewrite lookup_insert_ne by congruence. apply lookup_insert_eq.
Qed.


End MoreProperties.

(** ** Runs on sample inputs *)

(** The scenario of the specification: a user record and an assistant
    record, no snapshot. *)
Example scenario_two_records :
  fix_lines sample_rng (map JObj [sample_user; sample_assistant]) 0
  = inr (map JObj
           [ make_snapshot (JStr "abc") (JStr "2025-01-01T00:00:00.000Z");
             sample_user ++ [("gitBranch", JStr "main");
                             ("thinkingMetadata", thinking_metadata)];
             [("type", JStr "assistant"); ("version", JStr "2.0.28");
              ("gitBranch", JStr "main");
              ("requestId", JStr "req_0123456789ab4def8123456789abce3c")] ],
         2).
Proof. vm_compute. reflexivity. Qed.

(** A file whose only line is the JSON number 5: the run raises and the
    file is still there, with no backup beside it. *)
Example scenario_number_line :
  fix_session sample_rng strip_ascii loads_sample dumps_sample
    encodable_sample backup_sample
    "s.jsonl" {[ "s.jsonl" := Text ["5" +:+ newline] ]} 0
  = (Raised AttributeError, {[ "s.jsonl" := Text ["5" +:+ newline] ]}).
Proof. vm_compute. reflexivity. Qed.

(** A file with one line that does not parse and one empty object: the
    original moves to the backup path and two lines are written. *)
Example scenario_bad_line_then_object :
  fix_session sample_rng strip_ascii loads_sample dumps_sample
    encodable_sample backup_sample
    "s.jsonl"
    {[ "s.jsonl" := Text ["not json" +:+ newline; "{}" +:+ newline] ]} 0
  = (Returned true,
     <[ "s.jsonl" := Text ["{...}" +:+ newline; "{}" +:+ newline] ]>
       (<[ "s.jsonl.backup"
           := Text ["not json" +:+ newline; "{}" +:+ newline] ]>
          (delete "s.jsonl"
             {[ "s.jsonl"
                := Text ["not json" +:+ newline; "{}" +:+ newline] ]}))).
Proof. vm_compute. reflexivity. Qed.

(** A directory at the path, and a file that is not UTF-8 after its first
    line: the call raises at [open] and while reading, and changes
    nothing. *)
Example scenario_directory_and_binary :
  fix_session sample_rng strip_ascii loads_sample dumps_sample
    encodable_sample backup_sample "d" {[ "d" := Dir ]} 0
  = (Raised IsADirectoryError, {[ "d" := Dir ]})
  /\ fix_session sample_rng strip_ascii loads_sample dumps_sample
       encodable_sample backup_sample "b" {[ "b" := Undecodable ["{}"] ]} 0
     = (Raised UnicodeDecodeError, {[ "b" := Undecodable ["{}"] ]}).
Proof. split; vm_compute; reflexivity. Qed.

(** ** The properties at sample inputs *)

(** C1 as stated fails: two snapshot records in, two snapshot records out. *)
Lemma C1_two_snapshots_kept :
  exists outs n',
    fix_lines sample_rng
      (map JObj [ [("type", JStr "file-history-snapshot")];
                  [("type", JStr "file-history-snapshot")] ]) 0
    = inr (map JObj outs, n')
    /\ count_snapshots outs = 2
    /\ count_snapshots outs <> 1.
Proof.
  exists [ [("type", JStr "file-history-snapshot")];
           [("type", JStr "file-history-snapshot")] ], 0.
  split; [vm_compute; reflexivity|]. split; [reflexivity | discriminate].
Qed.

Lemma C1_snapshot_count_witness :
  [sample_user; sample_assistant] <> []
  /\ exists outs n',
      fix_lines sample_rng (map JObj [sample_user; sample_assistant]) 0
      = inr (map JObj outs, n')
      /\ count_snapshots outs
         = Nat.max 1 (count_snapshots [sample_user; sample_assistant])
      /\ (count_snapshots [sample_user; sample_assistant] = 0 ->
          exists u t, head outs = Some (make_snapshot u t)).
Proof.
  split; [discriminate|].
  apply (C1_snapshot_count sample_rng [sample_user; sample_assistant] 0).
  discriminate.
Defined.

Lemma C2_synthesized_snapshot_witness :
  Forall (fun d => is_snapshot d = false) [sample_user; sample_assistant]
  /\ exists snap inner outs n',
      fix_lines sample_rng (map JObj [sample_user; sample_assistant]) 0
      = inr (map JObj (snap :: outs), n')
      /\ dict_get "type" snap = Some (JStr "file-history-snapshot")
      /\ dict_get "messageId" snap
         = Some (match dict_get "uuid" sample_user with
                 | Some v => v
                 | None => JStr (uuid_str (uuid4_of_bits (sample_rng 0)))
                 end)
      /\ dict_get "snapshot" snap = Some (JObj inner)
      /\ dict_get "messageId" inner = dict_get "messageId" snap
      /\ dict_get "timestamp" inner
         = Some (match dict_get "timestamp" sample_user with
                 | Some v => v
                 | None => JStr "2025-10-29T10:00:00.000Z"
                 end)
      /\ dict_get "trackedFileBackups" inner = Some (JObj [])
      /\ dict_get "isSnapshotUpdate" snap = Some (JBool false).
Proof.
  assert (H : Forall (fun d => is_snapshot d = false)
                     [sample_user; sample_assistant])
    by (repeat constructor).
  split; [exact H|].
  exact (C2_synthesized_snapshot sample_rng sample_user [sample_assistant] 0 H).
Defined.

Lemma C3_order_preserved_witness :
  read_lines strip_ascii loads_sample
    ["not json" +:+ newline; "{}" +:+ newline; newline; "{}" +:+ newline]
  = inr (map JObj [[]; []])
  /\ [([] : dict); []] <> []
  /\ exists lines outs n',
      read_lines strip_ascii loads_sample
        ["not json" +:+ newline; "{}" +:+ newline; newline;
         "{}" +:+ newline]
      = inr lines
      /\ fix_lines sample_rng lines 0 = inr (map JObj outs, n')
      /\ Forall2 same_record (List.filter not_snapshot [[]; []])
                             (List.filter not_snapshot outs).
Proof.
  split; [reflexivity|]. split; [discriminate|].
  apply (C3_order_preserved sample_rng strip_ascii loads_sample
           ["not json" +:+ newline; "{}" +:+ newline; newline;
            "{}" +:+ newline] [[]; []] 0);
    [reflexivity | discriminate].
Defined.

Lemma C4_no_snapshot_added_witness :
  Exists (fun d => is_snapshot d = true) [sample_user; sample_snapshot]
  /\ exists outs n',
      fix_lines sample_rng (map JObj [sample_user; sample_snapshot]) 0
      = inr (map JObj outs, n')
      /\ length outs = length [sample_user; sample_snapshot]
      /\ count_snapshots outs = count_snapshots [sample_user; sample_snapshot]
      /\ Forall2 same_record [sample_user; sample_snapshot] outs.
Proof.
  assert (H : Exists (fun d => is_snapshot d = true)
                     [sample_user; sample_snapshot])
    by (right; left; reflexivity).
  split; [exact H|].
  exact (C4_no_snapshot_added sample_rng [sample_user; sample_snapshot] 0 H).
Defined.

(** C5 as stated fails: a snapshot record keeps the [version] it came
    with. *)
Lemma C5_snapshot_version_kept :
  exists outs n',
    fix_lines sample_rng
      (map JObj [ [("type", JStr "file-history-snapshot");
                   ("version", JStr "1.0.0")] ]) 0
    = inr (map JObj outs, n')
    /\ Exists (fun o => dict_get "version" o = Some (JStr "1.0.0")
                        /\ JStr "1.0.0" <> JStr "2.0.28") outs.
Proof.
  exists [ [("type", JStr "file-history-snapshot");
            ("version", JStr "1.0.0")] ], 0.
  split; [vm_compute; reflexivity|].
  left. split; [reflexivity | discriminate].
Qed.

Lemma C5_version_overwritten_witness :
  [sample_snapshot; sample_assistant] <> []
  /\ exists outs n',
      fix_lines sample_rng (map JObj [sample_snapshot; sample_assistant]) 0
      = inr (map JObj outs, n')
      /\ Forall (fun o => is_snapshot o = false ->
                          forall v, dict_get "version" o = Some v ->
                                    v = JStr "2.0.28") outs.
Proof.
  split; [discriminate|].
  apply (C5_version_overwritten sample_rng [sample_snapshot; sample_assistant] 0).
  discriminate.
Defined.

Lemma C6_assistant_requestId_witness :
  [sample_user; sample_assistant] <> []
  /\ exists outs n',
      fix_lines sample_rng (map JObj [sample_user; sample_assistant]) 0
      = inr (map JObj
               (synthesized sample_rng [sample_user; sample_assistant] 0
                  ++ outs), n')
      /\ Forall (fun o => has_type "assistant" o = true ->
                          dict_in "requestId" o = true)
                (synthesized sample_rng [sample_user; sample_assistant] 0
                   ++ outs)
      /\ Forall2 (fun i o =>
                    dict_get "type" o = dict_get "type" i
                    /\ (has_type "assistant" i = true ->
                        match dict_get "requestId" i with
                        | Some v => dict_get "requestId" o = Some v
                        | None =>
                            exists k, 0 <= k < n'
                              /\ dict_get "requestId" o
                                 = Some (JStr ("req_" +:+
                                               uuid_hex
                                                 (uuid4_of_bits
                                                    (sample_rng k))))
                        end)) [sample_user; sample_assistant] outs.
Proof.
  split; [discriminate|].
  apply (C6_assistant_requestId sample_rng [sample_user; sample_assistant] 0).
  discriminate.
Defined.

Lemma C7_gitBranch_witness :
  [sample_assistant; sample_user] <> []
  /\ exists outs n',
      fix_lines sample_rng (map JObj [sample_assistant; sample_user]) 0
      = inr (map JObj
               (synthesized sample_rng [sample_assistant; sample_user] 0
                  ++ outs), n')
      /\ Forall (fun o => has_type "user" o || has_type "assistant" o = true ->
                          dict_in "gitBranch" o = true)
                (synthesized sample_rng [sample_assistant; sample_user] 0
                   ++ outs)
      /\ Forall2 (fun i o =>
                    dict_get "type" o = dict_get "type" i
                    /\ (has_type "user" i || has_type "assistant" i = true ->
                        dict_get "gitBranch" o
                        = Some (match dict_get "gitBranch" i with
                                | Some v => v
                                | None => JStr "main"
                                end))) [sample_assistant; sample_user] outs.
Proof.
  split; [discriminate|].
  apply (C7_gitBranch sample_rng [sample_assistant; sample_user] 0).
  discriminate.
Defined.

Lemma C8_failure_leaves_filesystem_witness :
  (({[ "s.jsonl" := Text [newline; "not json" +:+ newline] ]}
      : gmap string node) !! "s.jsonl" = None
   \/ exists content,
       ({[ "s.jsonl" := Text [newline; "not json" +:+ newline] ]}
          : gmap string node) !! "s.jsonl" = Some (Text content)
       /\ Forall (fun line => strip_ascii line = ""
                              \/ loads_sample (strip_ascii line)
                                 = JSONDecodeError)
                 content)
  /\ fix_session sample_rng strip_ascii loads_sample dumps_sample
       encodable_sample backup_sample
       "s.jsonl" {[ "s.jsonl" := Text [newline; "not json" +:+ newline] ]} 0
     = (Returned false,
        {[ "s.jsonl" := Text [newline; "not json" +:+ newline] ]}).
Proof.
  assert (H : ({[ "s.jsonl" := Text [newline; "not json" +:+ newline] ]}
                 : gmap string node) !! "s.jsonl" = None
              \/ exists content,
                  ({[ "s.jsonl" := Text [newline; "not json" +:+ newline] ]}
                     : gmap string node) !! "s.jsonl" = Some (Text content)
                  /\ Forall (fun line => strip_ascii line = ""
                                         \/ loads_sample (strip_ascii line)
                                            = JSONDecodeError) content).
  { right. exists [newline; "not json" +:+ newline].
    split; [reflexivity|].
    constructor; [left; reflexivity|].
    constructor; [right; reflexivity | constructor]. }
  split; [exact H|].
  exact (C8_failure_leaves_filesystem sample_rng strip_ascii loads_sample
           dumps_sample encodable_sample backup_sample "s.jsonl" _ 0 H).
Defined.

Lemma C9_fix_lines_idempotent_witness :
  [sample_user; sample_assistant] <> []
  /\ exists out n',
      fix_lines sample_rng (map JObj [sample_user; sample_assistant]) 0
      = inr (out, n')
      /\ forall m, fix_lines sample_rng out m = inr (out, m).
Proof.
  split; [discriminate|].
  apply (C9_fix_lines_idempotent sample_rng [sample_user; sample_assistant] 0).
  discriminate.
Defined.

Lemma C10_non_object_line_witness :
  ({[ "s.jsonl" := Text ["{}" +:+ newline; "5" +:+ newline] ]}
     : gmap string node) !! "s.jsonl"
  = Some (Text ["{}" +:+ newline; "5" +:+ newline])
  /\ read_lines strip_ascii loads_sample ["{}" +:+ newline; "5" +:+ newline]
     = inr [JObj []; JInt 5]
  /\ In (JInt 5) [JObj []; JInt 5]
  /\ fix_lines sample_rng [JObj []; JInt 5] 0 = inl AttributeError
  /\ fix_session sample_rng strip_ascii loads_sample dumps_sample
       encodable_sample backup_sample "s.jsonl"
       {[ "s.jsonl" := Text ["{}" +:+ newline; "5" +:+ newline] ]} 0
     = (Raised AttributeError,
        {[ "s.jsonl" := Text ["{}" +:+ newline; "5" +:+ newline] ]}).
Proof.
  assert (H : ({[ "s.jsonl" := Text ["{}" +:+ newline; "5" +:+ newline] ]}
                 : gmap string node) !! "s.jsonl"
              = Some (Text ["{}" +:+ newline; "5" +:+ newline]))
    by reflexivity.
  assert (Hr : read_lines strip_ascii loads_sample
                 ["{}" +:+ newline; "5" +:+ newline]
               = inr [JObj []; JInt 5]) by reflexivity.
  destruct (C10_non_object_line sample_rng strip_ascii loads_sample
              dumps_sample encodable_sample backup_sample "s.jsonl" _ _ _ 0
              H Hr)
    as (Hin & _ & Hraise).
  split; [exact H|]. split; [exact Hr|]. split.
  - apply (Hin ("5" +:+ newline) (JInt 5));
      [right; left; reflexivity | discriminate | reflexivity].
  - apply Hraise. right. left. reflexivity.
Defined.

(** ** The further properties at sample inputs *)

Lemma user_thinkingMetadata_witness :
  [sample_user; sample_assistant] <> []
  /\ exists outs n',
      fix_lines sample_rng (map JObj [sample_user; sample_assistant]) 0
      = inr (map JObj
               (synthesized sample_rng [sample_user; sample_assistant] 0
                  ++ outs), n')
      /\ Forall (fun o => has_type "user" o = true ->
                          dict_in "thinkingMetadata" o = true)
                (synthesized sample_rng [sample_user; sample_assistant] 0
                   ++ outs)
      /\ Forall2 (fun i o =>
                    dict_get "type" o = dict_get "type" i
                    /\ (has_type "user" i = true ->
                        dict_get "thinkingMetadata" o
                        = Some (match dict_get "thinkingMetadata" i with
                                | Some v => v
                                | None =>
                                    JObj [("level", JStr "high");
                                          ("disabled", JBool false);
                                          ("triggers", JArr [])]
                                end))) [sample_user; sample_assistant] outs.
Proof.
  split; [discriminate|].
  apply (user_thinkingMetadata sample_rng [sample_user; sample_assistant] 0).
  discriminate.
Defined.

Lemma draws_made_witness :
  [sample_user; sample_assistant] <> []
  /\ exists out,
      fix_lines sample_rng (map JObj [sample_user; sample_assistant]) 0
      = inr (out,
             count_needs_requestId [sample_user; sample_assistant]
             + (if existsb is_snapshot [sample_user; sample_assistant]
                then 0 else 1) + 0).
Proof.
  split; [discriminate|].
  apply (draws_made sample_rng [sample_user; sample_assistant] 0).
  discriminate.
Defined.

Lemma requestId_own_draw_witness :
  [sample_assistant; sample_user; sample_assistant] !! 2 = Some sample_assistant
  /\ needs_requestId sample_assistant = true
  /\ exists outs n' o,
      fix_lines sample_rng
        (map JObj [sample_assistant; sample_user; sample_assistant]) 0
      = inr (map JObj
               (synthesized sample_rng
                  [sample_assistant; sample_user; sample_assistant] 0
                  ++ outs), n')
      /\ outs !! 2 = Some o
      /\ dict_get "requestId" o
         = Some (JStr ("req_" +:+
                       uuid_hex
                         (uuid4_of_bits
                            (sample_rng
                               (count_needs_requestId
                                  (take 2 [sample_assistant; sample_user;
                                           sample_assistant])
                                + length
                                    (synthesized sample_rng
                                       [sample_assistant; sample_user;
                                        sample_assistant] 0) + 0)))))
      /\ (forall q, 2 < q ->
             count_needs_requestId
               (take 2 [sample_assistant; sample_user; sample_assistant])
             < count_needs_requestId
                 (take q [sample_assistant; sample_user; sample_assistant])).
Proof.
  split; [reflexivity|]. split; [reflexivity|].
  apply (requestId_own_draw sample_rng
           [sample_assistant; sample_user; sample_assistant] 0 2
           sample_assistant); reflexivity.
Defined.

Lemma output_length_witness :
  [sample_user; sample_assistant] <> []
  /\ exists out n',
      fix_lines sample_rng (map JObj [sample_user; sample_assistant]) 0
      = inr (out, n')
      /\ length out
         = (if existsb is_snapshot [sample_user; sample_assistant]
            then 0 else 1) + length [sample_user; sample_assistant].
Proof.
  split; [discriminate|].
  apply (output_length sample_rng [sample_user; sample_assistant] 0).
  discriminate.
Defined.

Lemma snapshots_untouched_witness :
  [sample_user; sample_snapshot] <> []
  /\ exists outs n',
      fix_lines sample_rng (map JObj [sample_user; sample_snapshot]) 0
      = inr (map JObj
               (synthesized sample_rng [sample_user; sample_snapshot] 0
                  ++ outs), n')
      /\ Forall2 (fun i o => dict_get "type" o = dict_get "type" i
                             /\ (is_snapshot i = true -> o = i))
                 [sample_user; sample_snapshot] outs.
Proof.
  split; [discriminate|].
  apply (snapshots_untouched sample_rng [sample_user; sample_snapshot] 0).
  discriminate.
Defined.

Lemma keys_only_added_witness :
  [sample_user; sample_assistant] <> []
  /\ exists outs n',
      fix_lines sample_rng (map JObj [sample_user; sample_assistant]) 0
      = inr (map JObj
               (synthesized sample_rng [sample_user; sample_assistant] 0
                  ++ outs), n')
      /\ Forall2 (fun i o =>
                    keys_extend i o
                    /\ (forall k, dict_in k o = true ->
                                  dict_in k i = true
                                  \/ k = "gitBranch" \/ k = "requestId"
                                  \/ k = "thinkingMetadata")
                    /\ dict_in "version" o = dict_in "version" i)
                 [sample_user; sample_assistant] outs.
Proof.
  split; [discriminate|].
  apply (keys_only_added sample_rng [sample_user; sample_assistant] 0).
  discriminate.
Defined.

Lemma other_records_version_only_witness :
  [sample_system; sample_user] <> []
  /\ exists outs n',
      fix_lines sample_rng (map JObj [sample_system; sample_user]) 0
      = inr (map JObj
               (synthesized sample_rng [sample_system; sample_user] 0
                  ++ outs), n')
      /\ Forall2 (fun i o =>
                    other_type i = true ->
                    o = if dict_in "version" i
                        then dict_set "version" (JStr "2.0.28") i else i)
                 [sample_system; sample_user] outs.
Proof.
  split; [discriminate|].
  apply (other_records_version_only sample_rng [sample_system; sample_user] 0).
  discriminate.
Defined.

Lemma blank_or_bad_line_ignored_witness :
  (strip_ascii "not json" = ""
   \/ loads_sample (strip_ascii "not json") = JSONDecodeError)
  /\ read_lines strip_ascii loads_sample
       (["{}"] ++ "not json" :: ["5"])
     = read_lines strip_ascii loads_sample (["{}"] ++ ["5"]).
Proof.
  assert (H : strip_ascii "not json" = ""
              \/ loads_sample (strip_ascii "not json") = JSONDecodeError)
    by (right; reflexivity).
  split; [exact H|].
  exact (blank_or_bad_line_ignored strip_ascii loads_sample
           ["{}"] ["5"] "not json" H).
Defined.




Lemma second_run_overwrites_backup_witness :
  sample_fs !! "s.jsonl" = Some (Text sample_content)
  /\ read_lines strip_ascii (loads_known sample_known) sample_content
     = inr (map JObj [sample_user])
  /\ [sample_user] <> []
  /\ sample_fs !! backup_sample "s.jsonl" <> Some Dir
  /\ backup_sample "s.jsonl" <> "s.jsonl"
  /\ fix_lines sample_rng (map JObj [sample_user]) 0
     = inr (tl sample_known, 1)
  /\ all_encodable dumps_plain encodable_sample (tl sample_known)
  /\ Forall (fun j =>
               strip_ascii (line_of dumps_plain j) <> ""
               /\ loads_known sample_known (strip_ascii (line_of dumps_plain j))
                  = Loaded j) (tl sample_known)
  /\ exists fs1 fs2,
      fix_session sample_rng strip_ascii (loads_known sample_known)
        dumps_plain encodable_sample backup_sample "s.jsonl" sample_fs 0
      = (Returned true, fs1)
      /\ fix_session sample_rng strip_ascii (loads_known sample_known)
           dumps_plain encodable_sample backup_sample "s.jsonl" fs1 7
         = (Returned true, fs2)
      /\ fs1 !! "s.jsonl"
         = Some (Text (map (line_of dumps_plain) (tl sample_known)))
      /\ fs1 !! backup_sample "s.jsonl" = Some (Text sample_content)
      /\ fs2 !! "s.jsonl"
         = Some (Text (map (line_of dumps_plain) (tl sample_known)))
      /\ fs2 !! backup_sample "s.jsonl"
         = Some (Text (map (line_of dumps_plain) (tl sample_known))).
Proof.
  assert (H1 : sample_fs !! "s.jsonl" = Some (Text sample_content))
    by reflexivity.
  assert (H2 : read_lines strip_ascii (loads_known sample_known) sample_content
               = inr (map JObj [sample_user])) by (vm_compute; reflexivity).
  assert (H3 : [sample_user] <> []) by discriminate.
  assert (H4 : sample_fs !! backup_sample "s.jsonl" <> Some Dir)
    by (vm_compute; discriminate).
  assert (H5 : backup_sample "s.jsonl" <> "s.jsonl")
    by (vm_compute; discriminate).
  assert (H6 : fix_lines sample_rng (map JObj [sample_user]) 0
               = inr (tl sample_known, 1)) by (vm_compute; reflexivity).
  assert (H7 : all_encodable dumps_plain encodable_sample (tl sample_known))
    by (repeat constructor).
  assert (H8 : Forall (fun j =>
                 strip_ascii (line_of dumps_plain j) <> ""
                 /\ loads_known sample_known
                      (strip_ascii (line_of dumps_plain j)) = Loaded j)
                 (tl sample_known)).
  { repeat constructor; first [vm_compute; discriminate
                              | vm_compute; reflexivity]. }
  repeat (split; [assumption|]).
  exact (second_run_overwrites_backup sample_rng strip_ascii
           (loads_known sample_known) dumps_plain encodable_sample
           backup_sample "s.jsonl" sample_fs sample_content [sample_user] 0
           (tl sample_known) 1 7 H1 H2 H3 H4 H5 H6 H7 H8).
Defined.


(** The script on the sample file exits with status 0; on the file with a
    lone surrogate it ends in the exception of the write, with the file
    already renamed. *)
Example main_on_sample_files :
  (main sample_rng strip_ascii (loads_known sample_known) dumps_plain
     encodable_sample backup_sample ["fix_session.py"; "s.jsonl"]
     sample_fs 0).1 = Exit 0
  /\ (main sample_rng strip_ascii
        (loads_known [JObj sample_user; JObj sample_surrogate]) dumps_plain
        encodable_sample backup_sample ["fix_session.py"; "s.jsonl"]
        surrogate_fs 0).1 = Uncaught UnicodeEncodeError.
Proof. split; vm_compute; reflexivity. Qed.
